(** * Sales-Tool backend: token issuer, call router and objection bridge

    A shallow embedding of [src/index.ts].  The program is glue around four
    collaborators (Express, Mongoose/MongoDB, the Twilio helper library and
    the OpenAI client); each of them is modelled by the part of its behaviour
    the handlers observe, and the handlers themselves are transcribed
    statement by statement into a state-and-exception monad over a [World]
    holding the two collections and an ordered trace of effects.

    Events are handled one at a time.  Every awaited promise settles, with a
    value or with a rejection; what it settles to is read from an [Oracle],
    as are the clock and the health of the store (the outcome of
    [mongoose.connect], which the program only logs, shows there too).

    A [string] stands for the JavaScript string with the same character
    codes, all below 256. *)

From Stdlib Require Import String Ascii List ZArith Bool Lia DecimalString DecimalZ.
Import ListNotations.
Local Open Scope string_scope.
Set Warnings "-register-all".

(* ================================================================= *)
(** ** JavaScript values and errors *)

(** The integers every double holds exactly: at most 2^53 - 1 in absolute
    value.  JavaScript prints them in plain decimal. *)
Definition safe_integer (n : Z) : bool := (Z.abs n <=? 9007199254740991)%Z.

(** A field of [req.body] as [express.json()] and
    [express.urlencoded({ extended: true })] deliver it: absent, or a JSON
    value.  [JNumber] carries the safe integers; fractional and larger
    numbers are not represented. *)
Inductive JsValue : Type :=
| JUndefined
| JNull
| JBool (b : bool)
| JNumber (n : Z) (safe : safe_integer n = true)
| JString (s : string)
| JArray (items : list JsValue)
| JObject (fields : list (string * JsValue)).

Inductive JsError : Type :=
| TypeError (msg : string)
| Error (msg : string)
| ValidationError (paths : list string)
| MongoServerError (code : Z)
| MongoNetworkError
| APIError (msg : string).

(** ToBoolean: what [!v] and [v || d] test. *)
Definition truthy (v : JsValue) : bool :=
  match v with
  | JUndefined | JNull => false
  | JBool b => b
  | JNumber n _ => negb (n =? 0)%Z
  | JString s => negb (s =? "")
  | JArray _ | JObject _ => true
  end.

(** The outcome of evaluating a piece of JavaScript: a value, or a throw. *)
Inductive Completion (A : Type) : Type :=
| Normal (a : A)
| Throw (e : JsError).
Arguments Normal {A} a.
Arguments Throw {A} e.

(** [v.startsWith(p)]: only strings have the method; on any other non-nullish
    value the property is missing (or, for an object parsed from JSON, not a
    function) and the call throws.  On [undefined] and [null] the property
    access itself throws. *)
Definition startsWith (v : JsValue) (p : string) : Completion bool :=
  match v with
  | JString s => Normal (String.prefix p s)
  | JUndefined | JNull =>
      Throw (TypeError "Cannot read properties of undefined (reading 'startsWith')")
  | _ => Throw (TypeError "To.startsWith is not a function")
  end.

Definition decimal (n : Z) : string := NilZero.string_of_int (Z.to_int n).

(* ================================================================= *)
(** ** Process environment and startup (lines 12-61, 174-177) *)

Definition ProcessEnv := list (string * string).

Fixpoint getenv (env : ProcessEnv) (name : string) : option string :=
  match env with
  | [] => None
  | (k, v) :: rest => if k =? name then Some v else getenv rest name
  end.

(** [!X] for [X = process.env.NAME]: unset, or set to the empty string. *)
Definition missing (x : option string) : bool :=
  match x with
  | None => true
  | Some s => s =? ""
  end.

(** [process.env.NAME || fallback]. *)
Definition or_default (x : option string) (fallback : string) : string :=
  if missing x then fallback else match x with Some s => s | None => fallback end.

(** The module-level constants.  [process.env.X as string] is a type
    assertion only, so each constant is still [undefined] when unset. *)
Record Config : Type := {
  FRONTEND_ORIGIN : string;
  MONGO_URI : option string;
  TWILIO_ACCOUNT_SID : option string;
  TWILIO_AUTH_TOKEN : option string;
  TWILIO_API_KEY : option string;
  TWILIO_API_SECRET : option string;
  TWILIO_APP_SID : option string;
  TWILIO_PHONE_NUMBER : option string;
  OPENAI_API_KEY : option string;
  PORT : string
}.

Definition read_config (env : ProcessEnv) : Config :=
  {| FRONTEND_ORIGIN := or_default (getenv env "FRONTEND_URL") "http://localhost:3000";
     MONGO_URI := getenv env "MONGO_URI";
     TWILIO_ACCOUNT_SID := getenv env "TWILIO_ACCOUNT_SID";
     TWILIO_AUTH_TOKEN := getenv env "TWILIO_AUTH_TOKEN";
     TWILIO_API_KEY := getenv env "TWILIO_API_KEY";
     TWILIO_API_SECRET := getenv env "TWILIO_API_SECRET";
     TWILIO_APP_SID := getenv env "TWILIO_APP_SID";
     TWILIO_PHONE_NUMBER := getenv env "TWILIO_PHONE_NUMBER";
     OPENAI_API_KEY := getenv env "OPENAI_API_KEY";
     PORT := or_default (getenv env "PORT") "3001" |}.

Inductive Startup : Type :=
| Exited (code : Z) (stderr : string)
| Listening (cfg : Config).

(** The top-level statements of the module, in order: three guards, each
    ending the process with [process.exit(1)], then [server.listen]. *)
Definition startup (env : ProcessEnv) : Startup :=
  let cfg := read_config env in
  if missing (MONGO_URI cfg) then
    Exited 1 "MongoDB URI is missing in .env"
  else if missing (TWILIO_ACCOUNT_SID cfg)
          || missing (TWILIO_AUTH_TOKEN cfg)
          || missing (TWILIO_PHONE_NUMBER cfg) then
    Exited 1 "Missing Twilio credentials in .env"
  else if missing (OPENAI_API_KEY cfg) then
    Exited 1 "OpenAI API key is missing in .env"
  else
    Listening cfg.

(* ================================================================= *)
(** ** Mongoose schemas and models (lines 64-79) *)

(** A path of type [String] after Mongoose's cast of the value assigned to
    it.  A value that cannot be cast leaves the path invalid, which surfaces
    when the document is validated. *)
Inductive Cast : Type :=
| CastOk (s : string)
| CastNullish
| CastError.

Fixpoint own_property (fields : list (string * JsValue)) (name : string) : JsValue :=
  match fields with
  | [] => JUndefined
  | (k, v) :: rest => if k =? name then v else own_property rest name
  end.

(** Mongoose's cast to String: nullish stays nullish; a value carrying a
    string [_id] casts to it; arrays and plain objects are refused; anything
    else casts through its own [toString()]. *)
Definition castString (v : JsValue) : Cast :=
  match v with
  | JUndefined | JNull => CastNullish
  | JString s => CastOk s
  | JBool b => CastOk (if b then "true" else "false")
  | JNumber n _ => CastOk (decimal n)
  | JArray _ => CastError
  | JObject fields =>
      match own_property fields "_id" with
      | JString s => if s =? "" then CastError else CastOk s
      | _ => CastError
      end
  end.

(** [required: true] on a String path: present, and not the empty string. *)
Definition checkRequired (c : Cast) : option string :=
  match c with
  | CastOk s => if s =? "" then None else Some s
  | _ => None
  end.

Module CallLog.

Record doc : Type := {
  _id : string;
  phoneNumber : string;
  status : string;
  duration : option Z;
  timestamp : Z
}.

(** What [new CallLog({ _id, phoneNumber, status })] holds: every path
    cast, [timestamp] defaulted from the clock, [duration] unset. *)
Record draft : Type := {
  draft_id : Cast;
  draft_phoneNumber : Cast;
  draft_status : Cast;
  draft_timestamp : Z
}.

Definition create (now : Z) (id phone st : JsValue) : draft :=
  {| draft_id := castString id;
     draft_phoneNumber := castString phone;
     draft_status := castString st;
     draft_timestamp := now |}.

Definition invalid_paths (d : draft) : list string :=
  ((match checkRequired (draft_id d) with None => ["_id"] | Some _ => [] end)
   ++ (match checkRequired (draft_phoneNumber d) with None => ["phoneNumber"] | Some _ => [] end)
   ++ (match checkRequired (draft_status d) with None => ["status"] | Some _ => [] end))%list.

Definition validate (d : draft) : Completion doc :=
  match checkRequired (draft_id d),
        checkRequired (draft_phoneNumber d),
        checkRequired (draft_status d) with
  | Some i, Some p, Some s =>
      Normal {| _id := i; phoneNumber := p; status := s;
                duration := None; timestamp := draft_timestamp d |}
  | _, _, _ => Throw (ValidationError (invalid_paths d))
  end.

Definition has_id (sid : string) (d : doc) : bool := _id d =? sid.

End CallLog.

Module Objection.

Record doc : Type := {
  message : string;
  response : string;
  timestamp : Z
}.

Record draft : Type := {
  draft_message : Cast;
  draft_response : Cast;
  draft_timestamp : Z
}.

(** [new Objection({ message, response: suggestion })] with
    [message : string] and [suggestion : string | null]. *)
Definition create (now : Z) (msg : string) (suggestion : option string) : draft :=
  {| draft_message := CastOk msg;
     draft_response := match suggestion with Some s => CastOk s | None => CastNullish end;
     draft_timestamp := now |}.

Definition invalid_paths (d : draft) : list string :=
  ((match checkRequired (draft_message d) with None => ["message"] | Some _ => [] end)
   ++ (match checkRequired (draft_response d) with None => ["response"] | Some _ => [] end))%list.

Definition validate (d : draft) : Completion doc :=
  match checkRequired (draft_message d), checkRequired (draft_response d) with
  | Some m, Some r =>
      Normal {| message := m; response := r; timestamp := draft_timestamp d |}
  | _, _ => Throw (ValidationError (invalid_paths d))
  end.

End Objection.

(* ================================================================= *)
(** ** Twilio helper library: access tokens and TwiML *)

Module Twilio.

Record VoiceGrant : Type := {
  outgoingApplicationSid : option string;
  incomingAllow : bool
}.

Record AccessTokenOptions : Type := {
  opt_identity : string;
  opt_ttl : Z
}.

Record AccessToken : Type := {
  accountSid : string;
  keySid : string;
  secret : string;
  identity : string;
  ttl : Z;
  grants : list VoiceGrant
}.

(** [new AccessToken(accountSid, keySid, secret, options)]: the constructor
    throws on each falsy credential and on a falsy identity; a falsy [ttl]
    falls back to the default of 3600 seconds. *)
Definition new_AccessToken (accountSid keySid secret : option string)
    (options : AccessTokenOptions) : Completion AccessToken :=
  match accountSid, keySid, secret with
  | None, _, _ => Throw (Error "accountSid is required")
  | Some a, None, _ =>
      if a =? "" then Throw (Error "accountSid is required")
      else Throw (Error "keySid is required")
  | Some a, Some k, None =>
      if a =? "" then Throw (Error "accountSid is required")
      else if k =? "" then Throw (Error "keySid is required")
      else Throw (Error "secret is required")
  | Some a, Some k, Some s =>
      if a =? "" then Throw (Error "accountSid is required")
      else if k =? "" then Throw (Error "keySid is required")
      else if s =? "" then Throw (Error "secret is required")
      else if opt_identity options =? "" then
        Throw (Error "identity is required to be specified in options")
      else
        Normal {| accountSid := a; keySid := k; secret := s;
                  identity := opt_identity options;
                  ttl := if (opt_ttl options =? 0)%Z then 3600%Z else opt_ttl options;
                  grants := [] |}
  end.

Definition addGrant (t : AccessToken) (g : VoiceGrant) : AccessToken :=
  {| accountSid := accountSid t; keySid := keySid t; secret := secret t;
     identity := identity t; ttl := ttl t; grants := (grants t ++ [g])%list |}.

(** [VoiceGrant.toPayload()]. *)
Record VoicePayload : Type := {
  incoming_allow : option bool;
  outgoing_application_sid : option string
}.

Definition toPayload (g : VoiceGrant) : VoicePayload :=
  {| incoming_allow := if incomingAllow g then Some true else None;
     outgoing_application_sid :=
       if missing (outgoingApplicationSid g) then None else outgoingApplicationSid g |}.

Record JwtHeader : Type := {
  cty : string;
  typ : string;
  alg : string
}.

Record JwtPayload : Type := {
  jti : string;
  grants_identity : string;
  grants_voice : option VoicePayload;
  iat : Z;
  exp : Z;
  iss : string;
  sub : string
}.

(** The encoding and signing primitives of the JWT library: base64url of the
    JSON text of header and payload, and the base64url HMAC-SHA256 of the
    signing input under the secret. *)
Class JwtCodec : Type := {
  encode_header : JwtHeader -> string;
  encode_payload : JwtPayload -> string;
  hs256 : string -> string -> string
}.

(** [grants[grant.key] = grant.toPayload()] for each grant in turn: a later
    voice grant replaces an earlier one. *)
Definition voice_of (gs : list VoiceGrant) : option VoicePayload :=
  fold_left (fun _ g => Some (toPayload g)) gs None.

(** The claims [toJwt] signs at clock reading [now] (milliseconds). *)
Definition claims (now : Z) (t : AccessToken) : JwtPayload :=
  let seconds := (now / 1000)%Z in
  {| jti := keySid t ++ "-" ++ decimal seconds;
     grants_identity := identity t;
     grants_voice := voice_of (grants t);
     iat := seconds;
     exp := (seconds + ttl t)%Z;
     iss := keySid t;
     sub := accountSid t |}.

Definition jwt_header : JwtHeader :=
  {| cty := "twilio-fpa;v=1"; typ := "JWT"; alg := "HS256" |}.

Definition sign `{JwtCodec} (payload : JwtPayload) (key : string) : string :=
  let signing_input := encode_header jwt_header ++ "." ++ encode_payload payload in
  signing_input ++ "." ++ hs256 key signing_input.

Definition toJwt `{JwtCodec} (now : Z) (t : AccessToken) : string :=
  sign (claims now t) (secret t).

(** TwiML: the document [new twiml.VoiceResponse()] builds, as the tree of
    verbs it holds; [toString()] serialises it to XML. *)
Record Dial : Type := {
  callerId : option string;
  number : JsValue
}.

Inductive Verb : Type :=
| VDial (d : Dial).

Record VoiceResponse : Type := {
  verbs : list Verb
}.

Definition new_VoiceResponse : VoiceResponse := {| verbs := [] |}.

(** The characters the XML builder refuses in text and in attribute values:
    the control characters other than tab, line feed and carriage return. *)
Definition legal_char (c : ascii) : bool :=
  let n := nat_of_ascii c in
  negb ((n <=? 8) || (n =? 11) || (n =? 12) || ((14 <=? n) && (n <=? 31)))%nat.

Fixpoint xml_legal (s : string) : bool :=
  match s with
  | EmptyString => true
  | String c rest => legal_char c && xml_legal rest
  end.

(** An attribute that is [undefined] is left out; one that is set must pass
    the character check. *)
Definition attribute_legal (value : option string) : bool :=
  match value with
  | None => true
  | Some v => xml_legal v
  end.

(** The text node a scalar number argument becomes: none for [undefined],
    the value's string form otherwise. *)
Definition text_of (n : JsValue) : option string :=
  match n with
  | JString s => Some s
  | JBool b => Some (if b then "true" else "false")
  | JNumber k _ => Some (decimal k)
  | _ => None
  end.

(** [response.dial({ callerId }, number)].  With [null] for the number the
    builder skips the element and the document is left as it was.
    Otherwise it creates the [<Dial>], throwing when the caller id or the
    text holds a character XML does not allow.  An array or an object for
    the number never comes from this program (line 110 has thrown on it
    first); what the builder makes of one is not modelled, and the case is
    closed with a throw. *)
Definition dial (r : VoiceResponse) (caller : option string) (n : JsValue)
    : Completion VoiceResponse :=
  match n with
  | JNull => Normal r
  | JArray _ | JObject _ => Throw (Error "dial: number is not a scalar")
  | _ =>
      if attribute_legal caller && attribute_legal (text_of n) then
        Normal {| verbs := (verbs r ++ [VDial {| callerId := caller; number := n |}])%list |}
      else Throw (Error "Invalid character in string")
  end.

(** Reading a token back, as the JWT library's [verify] does before it looks
    at the dates: the decoders of the two segments, inverse to the encoders,
    whose output, being base64url text, holds no dot. *)
Fixpoint no_dot (s : string) : bool :=
  match s with
  | EmptyString => true
  | String c rest => negb (c =? ".")%char && no_dot rest
  end.

Class JwtDecoder (codec : JwtCodec) : Type := {
  decode_header : string -> option JwtHeader;
  decode_payload : string -> option JwtPayload;
  decode_encode_header : forall h, decode_header (encode_header h) = Some h;
  decode_encode_payload : forall p, decode_payload (encode_payload p) = Some p;
  header_no_dot : forall h, no_dot (encode_header h) = true;
  payload_no_dot : forall p, no_dot (encode_payload p) = true
}.

(** The part of a string before its first dot, and the part after it. *)
Fixpoint split_dot (s : string) : string * option string :=
  match s with
  | EmptyString => (EmptyString, None)
  | String c rest =>
      if (c =? ".")%char then (EmptyString, Some rest)
      else let (a, b) := split_dot rest in (String c a, b)
  end.

(** [verify(token, key)] without the date checks: split at the first two
    dots, recompute the signature over the first two segments, compare, and
    decode. *)
Definition verify `{decoder : JwtDecoder} (token key : string)
    : option (JwtHeader * JwtPayload) :=
  match split_dot token with
  | (h, Some rest) =>
      match split_dot rest with
      | (p, Some signature) =>
          if signature =? hs256 key (h ++ "." ++ p) then
            match decode_header h, decode_payload p with
            | Some header, Some payload => Some (header, payload)
            | _, _ => None
            end
          else None
      | (_, None) => None
      end
  | (_, None) => None
  end.

End Twilio.

(* ================================================================= *)
(** ** OpenAI client: chat completions *)

Module OpenAI.

Record ChatMessage : Type := {
  role : string;
  content : string
}.

Record ChatRequest : Type := {
  model : string;
  messages : list ChatMessage
}.

(** [choice.message.content : string | null]. *)
Record ChatCompletionMessage : Type := {
  message_content : option string
}.

Record Choice : Type := {
  message : ChatCompletionMessage
}.

Record ChatCompletion : Type := {
  choices : list Choice
}.

End OpenAI.

(* ================================================================= *)
(** ** The world the handlers act on *)

Definition SocketId := string.

(** The console messages of the program, one constructor per template. *)
Inductive LogMsg : Type :=
| InvalidTo
| NewCallRequest (from : option string) (to : JsValue)
| InsertedData (to : JsValue)
| FailedToSaveCallLog (error : JsError)
| ProcessingObjection (message : string)
| AISuggestion (suggestion : option string)
| FailedToGenerate (error : JsError).

(** Observable effects, in the order they happen.  [IoEmit] is the broadcast
    [io.emit]; the program never performs it. *)
Inductive Event : Type :=
| ConsoleLog (m : LogMsg)
| ConsoleError (m : LogMsg)
| CompletionsCreate (request : OpenAI.ChatRequest)
| InsertCallLog (d : CallLog.doc)
| InsertObjection (d : Objection.doc)
| SocketEmit (socket : SocketId) (event : string) (payload : option string)
| IoEmit (event : string) (payload : option string).

(** A promise chain left running when a handler returns:
    [callLog.save().then(log).catch(log)]. *)
Inductive Job : Type :=
| SaveCallLog (callLog : CallLog.draft) (To : JsValue).

Record World : Type := {
  callLogs : list CallLog.doc;
  objections : list Objection.doc;
  trace : list Event;
  pending : list Job
}.

Definition empty_world : World :=
  {| callLogs := []; objections := []; trace := []; pending := [] |}.

(** What the surroundings decide while one event is handled: the clock, the
    answer of the completion service, and whether the store fails the write
    for a reason of its own (connection lost, timeout). *)
Record Oracle : Type := {
  now : Z;
  completion : OpenAI.ChatRequest -> Completion OpenAI.ChatCompletion;
  dbFault : bool
}.

(** State-and-exception monad: effects made before a throw stay made. *)
Definition M (A : Type) : Type := World -> Completion A * World.

Definition ret {A} (a : A) : M A := fun w => (Normal a, w).

Definition bind {A B} (m : M A) (k : A -> M B) : M B :=
  fun w =>
    match m w with
    | (Normal a, w') => k a w'
    | (Throw e, w') => (Throw e, w')
    end.

Definition lift {A} (c : Completion A) : M A := fun w => (c, w).

(** [try { body } catch (error) { handler }]. *)
Definition try_catch {A} (body : M A) (handler : JsError -> M A) : M A :=
  fun w =>
    match body w with
    | (Normal a, w') => (Normal a, w')
    | (Throw e, w') => handler e w'
    end.

Notation "x <- c1 ;; c2" := (bind c1 (fun x => c2))
  (at level 61, c1 at next level, right associativity).
Notation "c1 ;; c2" := (bind c1 (fun _ => c2))
  (at level 61, right associativity).

Definition perform (e : Event) : M unit :=
  fun w => (Normal tt,
            {| callLogs := callLogs w; objections := objections w;
               trace := (trace w ++ [e])%list; pending := pending w |}).

Definition console_log (m : LogMsg) : M unit := perform (ConsoleLog m).
Definition console_error (m : LogMsg) : M unit := perform (ConsoleError m).

(** [socket.emit(event, payload)]: to that one connection. *)
Definition socket_emit (socket : SocketId) (event : string) (payload : option string) : M unit :=
  perform (SocketEmit socket event payload).

(** Starting a promise chain without awaiting it. *)
Definition spawn (j : Job) : M unit :=
  fun w => (Normal tt,
            {| callLogs := callLogs w; objections := objections w;
               trace := trace w; pending := (pending w ++ [j])%list |}).

(** [doc.save()] on a document made with [new]: validation, then an insert.
    The store refuses an insert whose [_id] is already taken (E11000). *)
Definition CallLog_save (o : Oracle) (d : CallLog.draft) : M unit :=
  fun w =>
    match CallLog.validate d with
    | Throw e => (Throw e, w)
    | Normal doc =>
        if dbFault o then (Throw MongoNetworkError, w)
        else if existsb (CallLog.has_id (CallLog._id doc)) (callLogs w) then
          (Throw (MongoServerError 11000), w)
        else
          (Normal tt,
           {| callLogs := (callLogs w ++ [doc])%list; objections := objections w;
              trace := (trace w ++ [InsertCallLog doc])%list; pending := pending w |})
    end.

(** Objection documents get a fresh ObjectId, so no insert collides. *)
Definition Objection_save (o : Oracle) (d : Objection.draft) : M unit :=
  fun w =>
    match Objection.validate d with
    | Throw e => (Throw e, w)
    | Normal doc =>
        if dbFault o then (Throw MongoNetworkError, w)
        else
          (Normal tt,
           {| callLogs := callLogs w; objections := (objections w ++ [doc])%list;
              trace := (trace w ++ [InsertObjection doc])%list; pending := pending w |})
    end.

(** [openai.chat.completions.create(request)], awaited. *)
Definition completions_create (o : Oracle) (request : OpenAI.ChatRequest)
    : M OpenAI.ChatCompletion :=
  perform (CompletionsCreate request) ;; lift (completion o request).

(* ================================================================= *)
(** ** Express: requests, responses, dispatch *)

(** A request as the handlers see it; [body] is the object the body parsers
    leave in [req.body], empty when the request carries none. *)
Record Request : Type := {
  headers : list (string * string);
  query : list (string * string);
  body : list (string * JsValue)
}.

Inductive Body : Type :=
| Json_token (token : string)
| Xml (document : Twilio.VoiceResponse)
| ErrorPage (error : JsError).

Record HttpResponse : Type := {
  statusCode : Z;
  contentType : string;
  content : Body
}.

(** A route handler that throws before it has answered is answered for by
    Express's default error handler, with status 500. *)
Definition express (handler : M HttpResponse) (w : World) : HttpResponse * World :=
  match handler w with
  | (Normal res, w') => (res, w')
  | (Throw e, w') =>
      ({| statusCode := 500; contentType := "text/html"; content := ErrorPage e |}, w')
  end.

(** One pending promise chain run to its end:
    [save().then(() => console.log(..)).catch((error) => console.error(..))]. *)
Definition run_job (o : Oracle) (j : Job) : M unit :=
  match j with
  | SaveCallLog callLog To =>
      try_catch
        (CallLog_save o callLog ;; console_log (InsertedData To))
        (fun error => console_error (FailedToSaveCallLog error))
  end.

Fixpoint run_jobs (o : Oracle) (js : list Job) (w : World) : World :=
  match js with
  | [] => w
  | j :: rest => run_jobs o rest (snd (run_job o j w))
  end.

(** The event loop drains the pending promise chains. *)
Definition settle (o : Oracle) (w : World) : World :=
  run_jobs o (pending w)
    {| callLogs := callLogs w; objections := objections w;
       trace := trace w; pending := [] |}.

(* ================================================================= *)
(** ** The handlers *)

Section Handlers.

Context `{codec : Twilio.JwtCodec}.
Variable cfg : Config.

(** [app.get('/token', (req, res) => ..)], lines 82-103. *)
Definition token_handler (o : Oracle) (req : Request) : M HttpResponse :=
  let identity := "caller" in
  let voiceGrant :=
    {| Twilio.outgoingApplicationSid := TWILIO_APP_SID cfg;
       Twilio.incomingAllow := true |} in
  token <- lift (Twilio.new_AccessToken
                   (TWILIO_ACCOUNT_SID cfg) (TWILIO_API_KEY cfg) (TWILIO_API_SECRET cfg)
                   {| Twilio.opt_identity := identity; Twilio.opt_ttl := 3600 |}) ;;
  let token := Twilio.addGrant token voiceGrant in
  ret {| statusCode := 200; contentType := "application/json";
         content := Json_token (Twilio.toJwt (now o) token) |}.

(** [app.post('/voice', (req, res) => ..)], lines 106-132. *)
Definition voice_handler (o : Oracle) (req : Request) : M HttpResponse :=
  let response := Twilio.new_VoiceResponse in
  let To := own_property (body req) "To" in
  let CallSid := own_property (body req) "CallSid" in
  invalid <- (if negb (truthy To) then ret true
              else lift (startsWith To "client:")) ;;
  (if invalid : bool then console_error InvalidTo else ret tt) ;;
  console_log (NewCallRequest (TWILIO_PHONE_NUMBER cfg) To) ;;
  let callLog := CallLog.create (now o) CallSid To (JString "initiated") in
  spawn (SaveCallLog callLog To) ;;
  response <- lift (Twilio.dial response (TWILIO_PHONE_NUMBER cfg) To) ;;
  ret {| statusCode := 200; contentType := "text/xml"; content := Xml response |}.

Definition failure_text : string := "Failed to generate suggestion.".

Definition system_prompt : string :=
  "You are an expert sales assistant. Provide concise, persuasive responses to sales objections.".

Definition objection_request (message : string) : OpenAI.ChatRequest :=
  {| OpenAI.model := "gpt-3.5-turbo";
     OpenAI.messages :=
       [ {| OpenAI.role := "system"; OpenAI.content := system_prompt |};
         {| OpenAI.role := "user";
            OpenAI.content := "How should I handle this objection? " ++ message |} ] |}.

(** [response.choices[0].message.content]: reading [message] off a missing
    first choice throws. *)
Definition first_content (r : OpenAI.ChatCompletion) : Completion (option string) :=
  match OpenAI.choices r with
  | [] => Throw (TypeError "Cannot read properties of undefined (reading 'message')")
  | c :: _ => Normal (OpenAI.message_content (OpenAI.message c))
  end.

(** [socket.on('objection', async (message: string) => ..)], lines 139-164. *)
Definition objection_handler (o : Oracle) (socket : SocketId) (message : string) : M unit :=
  try_catch
    (console_log (ProcessingObjection message) ;;
     response <- completions_create o (objection_request message) ;;
     suggestion <- lift (first_content response) ;;
     console_log (AISuggestion suggestion) ;;
     let objection := Objection.create (now o) message suggestion in
     Objection_save o objection ;;
     socket_emit socket "suggestion" suggestion)
    (fun error =>
       console_error (FailedToGenerate error) ;;
       socket_emit socket "suggestion" (Some failure_text)).

(** A whole [GET /token] exchange. *)
Definition get_token (o : Oracle) (req : Request) (w : World) : HttpResponse * World :=
  express (token_handler o req) w.

(** A whole [POST /voice] exchange: the answer goes out when the handler
    returns, and the write it started settles afterwards. *)
Definition post_voice (o : Oracle) (req : Request) (w : World) : HttpResponse * World :=
  let (res, w') := express (voice_handler o req) w in
  (res, settle o w').

(** One [objection] event on a connection. *)
Definition on_objection (o : Oracle) (socket : SocketId) (message : string) (w : World)
    : Completion unit * World :=
  objection_handler o socket message w.

(** The running server as a transition system: one input per event, each
    with the oracle in force while it is handled. *)
Inductive Input : Type :=
| GetToken (o : Oracle) (req : Request)
| PostVoice (o : Oracle) (req : Request)
| OnObjection (o : Oracle) (socket : SocketId) (message : string).

Definition step (i : Input) (w : World) : World :=
  match i with
  | GetToken o req => snd (get_token o req w)
  | PostVoice o req => snd (post_voice o req w)
  | OnObjection o socket message => snd (on_objection o socket message w)
  end.

(** The world after a sequence of events, first to last. *)
Definition run (inputs : list Input) (w : World) : World :=
  fold_left (fun w i => step i w) inputs w.

End Handlers.

(* ================================================================= *)
(** ** Vocabulary of the properties *)

(** The signing configuration [/token] needs: account identifier, API
    key/secret pair and outbound application identifier, all set. *)
Definition signing_configured (cfg : Config) : bool :=
  negb (missing (TWILIO_ACCOUNT_SID cfg))
  && negb (missing (TWILIO_API_KEY cfg))
  && negb (missing (TWILIO_API_SECRET cfg))
  && negb (missing (TWILIO_APP_SID cfg)).

Definition is_string (v : JsValue) : bool :=
  match v with
  | JString _ => true
  | _ => false
  end.

(** The values of [To] on which line 110 does not throw. *)
Definition to_checkable (To : JsValue) : bool :=
  negb (truthy To) || is_string To.

(** The condition of line 110, for a checkable [To]. *)
Definition to_invalid (To : JsValue) : bool :=
  negb (truthy To)
  || match To with
     | JString s => String.prefix "client:" s
     | _ => false
     end.

Definition count_id (sid : string) (l : list CallLog.doc) : nat :=
  length (filter (CallLog.has_id sid) l).

Definition ids (w : World) : list string := map CallLog._id (callLogs w).

(** A world between events: no write in flight, identifiers unique. *)
Definition quiescent (w : World) : Prop :=
  pending w = [] /\ NoDup (ids w).

(** The shape of a persisted call log. *)
Definition wellformed (d : CallLog.doc) : Prop :=
  CallLog.status d = "initiated" /\ CallLog._id d <> "" /\ CallLog.phoneNumber d <> "".

(** The invariant of the server between events. *)
Definition consistent (w : World) : Prop :=
  quiescent w /\ Forall wellformed (callLogs w).

(** The socket traffic of a trace. *)
Definition is_emission (e : Event) : bool :=
  match e with
  | SocketEmit _ _ _ | IoEmit _ _ => true
  | _ => false
  end.

Definition emissions (t : list Event) : list Event := filter is_emission t.

(** The ways the processing of one objection fails. *)
Inductive ProcessingFails (o : Oracle) (message : string) : Prop :=
| ServiceError (e : JsError) :
    completion o (objection_request message) = Throw e ->
    ProcessingFails o message
| EmptyChoices (r : OpenAI.ChatCompletion) :
    completion o (objection_request message) = Normal r ->
    OpenAI.choices r = [] ->
    ProcessingFails o message
| NullContent (r : OpenAI.ChatCompletion) :
    completion o (objection_request message) = Normal r ->
    first_content r = Normal None ->
    ProcessingFails o message
| ValidationFailure (r : OpenAI.ChatCompletion) (suggestion : option string) (e : JsError) :
    completion o (objection_request message) = Normal r ->
    first_content r = Normal suggestion ->
    Objection.validate (Objection.create (now o) message suggestion) = Throw e ->
    ProcessingFails o message
| StoreFault :
    dbFault o = true ->
    ProcessingFails o message.

(** The document the call router answers with: one [<Dial>] of [To] under
    the provisioned number. *)
Definition routing_document (cfg : Config) (To : JsValue) : Twilio.VoiceResponse :=
  {| Twilio.verbs :=
       [ Twilio.VDial {| Twilio.callerId := TWILIO_PHONE_NUMBER cfg;
                         Twilio.number := To |} ] |}.

(** The provisioned number passes the builder's character check. *)
Definition caller_legal (cfg : Config) : bool :=
  Twilio.attribute_legal (TWILIO_PHONE_NUMBER cfg).

(** The values of [To] that pass line 110 and that line 128 turns into a
    [<Dial>]: absent, [false], [0], or a string of characters XML allows. *)
Definition to_dialable (To : JsValue) : bool :=
  match To with
  | JUndefined => true
  | JBool b => negb b
  | JNumber n _ => (n =? 0)%Z
  | JString s => Twilio.xml_legal s
  | JNull | JArray _ | JObject _ => false
  end.

(** What lines 128-131 and Express answer once line 110 has been passed:
    the document, or status 500 when [dial] throws. *)
Definition voice_answer (cfg : Config) (To : JsValue) : HttpResponse :=
  match Twilio.dial Twilio.new_VoiceResponse (TWILIO_PHONE_NUMBER cfg) To with
  | Normal document =>
      {| statusCode := 200; contentType := "text/xml"; content := Xml document |}
  | Throw e =>
      {| statusCode := 500; contentType := "text/html"; content := ErrorPage e |}
  end.

(** The answer of lines 130-131 around a [<Dial>] of [To]. *)
Definition routed (cfg : Config) (To : JsValue) : HttpResponse :=
  {| statusCode := 200; contentType := "text/xml";
     content := Xml (routing_document cfg To) |}.

(** What the handler logs before it answers. *)
Definition request_log (cfg : Config) (To : JsValue) : list Event :=
  ((if to_invalid To then [ConsoleError InvalidTo] else [])
   ++ [ConsoleLog (NewCallRequest (TWILIO_PHONE_NUMBER cfg) To)])%list.

(** The rejection [callLog.save()] ends in, if any: failed validation, a
    fault of the store, or an identifier already taken. *)
Definition save_error (o : Oracle) (d : CallLog.draft) (w : World) : option JsError :=
  match CallLog.validate d with
  | Throw e => Some e
  | Normal doc =>
      if dbFault o then Some MongoNetworkError
      else if existsb (CallLog.has_id (CallLog._id doc)) (callLogs w)
           then Some (MongoServerError 11000)
           else None
  end.

(** The routing claim without its restriction, as the specification words
    it: the exchange is answered 200, text/xml, with a document that holds a
    dial instruction. *)
Definition always_routed (cfg : Config) (o : Oracle) (req : Request) (w : World) : Prop :=
  exists d,
    fst (post_voice cfg o req w) =
      {| statusCode := 200; contentType := "text/xml";
         content := Xml {| Twilio.verbs := [Twilio.VDial d] |} |}.

(** Logging and routing of a valid request, as the specification words it:
    afterwards a record (CallSid, To, "initiated") is in the collection and
    the answer is the routing document that dials [To]. *)
Definition logged_and_routed
    (cfg : Config) (o : Oracle) (req : Request) (w : World) (to sid : string) : Prop :=
  (exists d,
     In d (callLogs (snd (post_voice cfg o req w))) /\
     CallLog._id d = sid /\ CallLog.phoneNumber d = to /\
     CallLog.status d = "initiated") /\
  fst (post_voice cfg o req w) = routed cfg (JString to).

(** Where a persisted call log comes from: a [/voice] request among the
    events, whose [CallSid] and [To] cast to the record's identifier and
    number, handled at the record's time. *)
Definition written_by (inputs : list Input) (d : CallLog.doc) : Prop :=
  exists o req,
    In (PostVoice o req) inputs /\
    castString (own_property (body req) "CallSid") = CastOk (CallLog._id d) /\
    castString (own_property (body req) "To") = CastOk (CallLog.phoneNumber d) /\
    CallLog.timestamp d = now o.

(** Overwriting on resubmission, as the specification words it: after both
    exchanges the one record under the identifier holds the number of the
    second request. *)
Definition resubmission_overwrites
    (cfg : Config) (o1 o2 : Oracle) (r1 r2 : Request) (w : World) (sid : string) : Prop :=
  exists d,
    filter (CallLog.has_id sid)
      (callLogs (snd (post_voice cfg o2 r2 (snd (post_voice cfg o1 r1 w))))) = [d] /\
    castString (own_property (body r2) "To") = CastOk (CallLog.phoneNumber d).

(* ================================================================= *)
(** ** Sample data for evaluation *)

(** A codec that leaves the claims readable. *)
#[local] Instance plain_codec : Twilio.JwtCodec :=
  {| Twilio.encode_header := fun h => Twilio.typ h ++ "/" ++ Twilio.alg h;
     Twilio.encode_payload := fun p => Twilio.jti p ++ "/" ++ Twilio.grants_identity p;
     Twilio.hs256 := fun key input => "hs256(" ++ input ++ ")" |}.

Definition base_env : ProcessEnv :=
  [ ("MONGO_URI", "mongodb://localhost/sales");
    ("TWILIO_ACCOUNT_SID", "AC100");
    ("TWILIO_AUTH_TOKEN", "auth");
    ("TWILIO_PHONE_NUMBER", "+15550000000");
    ("OPENAI_API_KEY", "sk-test") ].

Definition full_env : ProcessEnv :=
  (base_env ++ [ ("TWILIO_API_KEY", "SK200");
                 ("TWILIO_API_SECRET", "s3cret");
                 ("TWILIO_APP_SID", "AP300") ])%list.

Definition sample_cfg : Config := read_config full_env.

Definition reply (text : option string) : OpenAI.ChatCompletion :=
  {| OpenAI.choices :=
       [ {| OpenAI.message := {| OpenAI.message_content := text |} |} ] |}.

Definition healthy : Oracle :=
  {| now := 1700000000123;
     completion := fun _ => Normal (reply (Some "Anchor on value, not price."));
     dbFault := false |}.

Definition service_down : Oracle :=
  {| now := 1700000000123;
     completion := fun _ => Throw (APIError "503");
     dbFault := false |}.

Definition store_down : Oracle :=
  {| now := 1700000000123;
     completion := fun _ => Normal (reply (Some "Anchor on value, not price."));
     dbFault := true |}.

Definition voice_request (To CallSid : JsValue) : Request :=
  {| headers := []; query := []; body := [("To", To); ("CallSid", CallSid)] |}.

Definition bare_request : Request :=
  {| headers := []; query := []; body := [] |}.

Definition first_call : Request :=
  voice_request (JString "+15551230001") (JString "CA123").

Definition second_call : Request :=
  voice_request (JString "+15551230002") (JString "CA123").

Definition numeric_to : Request :=
  voice_request (JNumber 123 eq_refl) (JString "CA123").

Definition numeric_to_without_sid : Request :=
  {| headers := []; query := []; body := [("To", JNumber 123 eq_refl)] |}.

(** A number with the control character of code 1 in it. *)
Definition control_to : string := "+1555" ++ String "001"%char "234".

Definition control_call : Request :=
  voice_request (JString control_to) (JString "CA123").

Definition control_call_without_sid : Request :=
  {| headers := []; query := []; body := [("To", JString control_to)] |}.

Definition null_to_call : Request :=
  voice_request JNull (JString "CA123").

Definition without_to : Request :=
  {| headers := []; query := []; body := [("CallSid", JString "CA123")] |}.

(* ================================================================= *)
(** ** Vocabulary of the further properties *)

(** The variables the startup guards of lines 32, 49 and 56 test. *)
Definition guarded : list string :=
  [ "MONGO_URI"; "TWILIO_ACCOUNT_SID"; "TWILIO_AUTH_TOKEN";
    "TWILIO_PHONE_NUMBER"; "OPENAI_API_KEY" ].

(** The three arguments of [new AccessToken(..)] on line 95, all set. *)
Definition token_credentials (cfg : Config) : bool :=
  negb (missing (TWILIO_ACCOUNT_SID cfg))
  && negb (missing (TWILIO_API_KEY cfg))
  && negb (missing (TWILIO_API_SECRET cfg)).

(** A body field that is absent, [null] or the empty string. *)
Definition blank (v : JsValue) : bool :=
  match v with
  | JUndefined | JNull => true
  | JString s => s =? ""
  | _ => false
  end.

(** The invocations of [openai.chat.completions.create] in a trace. *)
Definition is_completion_call (e : Event) : bool :=
  match e with
  | CompletionsCreate _ => true
  | _ => false
  end.

Definition completion_calls (t : list Event) : list Event :=
  filter is_completion_call t.

Definition is_voice_input (i : Input) : bool :=
  match i with
  | PostVoice _ _ => true
  | _ => false
  end.

Definition is_objection_input (i : Input) : bool :=
  match i with
  | OnObjection _ _ _ => true
  | _ => false
  end.

(** The invocations a sequence of events asks for: one per [objection]
    event, in order. *)
Definition requests_of (inputs : list Input) : list Event :=
  flat_map (fun i =>
              match i with
              | OnObjection _ _ message => [CompletionsCreate (objection_request message)]
              | _ => []
              end) inputs.

(** What an emission in a world must look like: a [suggestion] to one
    socket, carrying text that is the failure text or the response of a
    stored objection. *)
Definition backed_emission (w : World) (e : Event) : Prop :=
  exists socket text,
    e = SocketEmit socket "suggestion" (Some text) /\
    (text = failure_text \/
     exists d, In d (objections w) /\ Objection.response d = text).

(** The invariant that ties the socket traffic to the store. *)
Definition all_backed (w : World) : Prop :=
  forall e, In e (trace w) -> is_emission e = true -> backed_emission w e.

(** A completion with a second choice after the first. *)
Definition two_choices : OpenAI.ChatCompletion :=
  {| OpenAI.choices :=
       [ {| OpenAI.message := {| OpenAI.message_content := Some "Anchor on value, not price." |} |};
         {| OpenAI.message := {| OpenAI.message_content := Some "Offer a discount." |} |} ] |}.

Definition healthy_two_choices : Oracle :=
  {| now := 1700000000123;
     completion := fun _ => Normal two_choices;
     dbFault := false |}.

Definition client_call : Request :=
  voice_request (JString "client:alice") (JString "CA777").

Definition empty_to_call : Request :=
  voice_request (JString "") (JString "CA778").

Definition env_without_app_sid : ProcessEnv :=
  (base_env ++ [ ("TWILIO_API_KEY", "SK200"); ("TWILIO_API_SECRET", "s3cret") ])%list.

(* ================================================================= *)
(** ** A codec that can be read back

    A stand-in for base64url over JSON, used to evaluate [Twilio.verify]:
    every string field goes out in hexadecimal, the fields are joined by
    underscores, and the decoder takes them apart again. *)

Definition nibble_char (a b c d : bool) : ascii :=
  match d, c, b, a with
  | false, false, false, false => "0"
  | false, false, false, true => "1"
  | false, false, true, false => "2"
  | false, false, true, true => "3"
  | false, true, false, false => "4"
  | false, true, false, true => "5"
  | false, true, true, false => "6"
  | false, true, true, true => "7"
  | true, false, false, false => "8"
  | true, false, false, true => "9"
  | true, false, true, false => "a"
  | true, false, true, true => "b"
  | true, true, false, false => "c"
  | true, true, false, true => "d"
  | true, true, true, false => "e"
  | true, true, true, true => "f"
  end%char.

Definition char_nibble (x : ascii) : option (bool * bool * bool * bool) :=
  match x with
  | "0" => Some (false, false, false, false)
  | "1" => Some (true, false, false, false)
  | "2" => Some (false, true, false, false)
  | "3" => Some (true, true, false, false)
  | "4" => Some (false, false, true, false)
  | "5" => Some (true, false, true, false)
  | "6" => Some (false, true, true, false)
  | "7" => Some (true, true, true, false)
  | "8" => Some (false, false, false, true)
  | "9" => Some (true, false, false, true)
  | "a" => Some (false, true, false, true)
  | "b" => Some (true, true, false, true)
  | "c" => Some (false, false, true, true)
  | "d" => Some (true, false, true, true)
  | "e" => Some (false, true, true, true)
  | "f" => Some (true, true, true, true)
  | _ => None
  end%char.

Fixpoint hex (s : string) : string :=
  match s with
  | EmptyString => EmptyString
  | String (Ascii b0 b1 b2 b3 b4 b5 b6 b7) rest =>
      String (nibble_char b4 b5 b6 b7) (String (nibble_char b0 b1 b2 b3) (hex rest))
  end.

Fixpoint unhex (s : string) : option string :=
  match s with
  | EmptyString => Some EmptyString
  | String _ EmptyString => None
  | String h (String l rest) =>
      match char_nibble h, char_nibble l, unhex rest with
      | Some (b4, b5, b6, b7), Some (b0, b1, b2, b3), Some t =>
          Some (String (Ascii b0 b1 b2 b3 b4 b5 b6 b7) t)
      | _, _, _ => None
      end
  end.

Definition hex_Z (z : Z) : string := hex (NilEmpty.string_of_int (Z.to_int z)).

Definition unhex_Z (s : string) : option Z :=
  match unhex s with
  | Some t => option_map Z.of_int (NilEmpty.int_of_string t)
  | None => None
  end.

(** The part of a string before its first [c], and the part after it. *)
Fixpoint split_char (c : ascii) (s : string) : string * option string :=
  match s with
  | EmptyString => (EmptyString, None)
  | String x rest =>
      if (x =? c)%char then (EmptyString, Some rest)
      else let (a, b) := split_char c rest in (String x a, b)
  end.

Definition voice_field (v : option Twilio.VoicePayload) : string :=
  match v with
  | None => "n"
  | Some g =>
      String "v"
        (String (match Twilio.incoming_allow g with
                 | None => "n" | Some true => "t" | Some false => "f"
                 end)%char
           (match Twilio.outgoing_application_sid g with
            | None => "n"
            | Some app => String "s" (hex app)
            end))
  end.

Definition unvoice_field (s : string) : option (option Twilio.VoicePayload) :=
  match s with
  | String "n" EmptyString => Some None
  | String "v" (String i out) =>
      match (match i with
             | "n" => Some None | "t" => Some (Some true) | "f" => Some (Some false)
             | _ => None
             end)%char,
            (match out with
             | String "n" EmptyString => Some None
             | String "s" app => option_map Some (unhex app)
             | _ => None
             end) with
      | Some incoming, Some outgoing =>
          Some (Some {| Twilio.incoming_allow := incoming;
                        Twilio.outgoing_application_sid := outgoing |})
      | _, _ => None
      end
  | _ => None
  end.

Definition hex_encode_header (h : Twilio.JwtHeader) : string :=
  hex (Twilio.cty h) ++ "_" ++ hex (Twilio.typ h) ++ "_" ++ hex (Twilio.alg h).

Definition hex_decode_header (s : string) : option Twilio.JwtHeader :=
  match split_char "_" s with
  | (a, Some r1) =>
      match split_char "_" r1 with
      | (b, Some c) =>
          match unhex a, unhex b, unhex c with
          | Some cty, Some typ, Some alg =>
              Some {| Twilio.cty := cty; Twilio.typ := typ; Twilio.alg := alg |}
          | _, _, _ => None
          end
      | (_, None) => None
      end
  | (_, None) => None
  end.

Definition hex_encode_payload (p : Twilio.JwtPayload) : string :=
  hex (Twilio.jti p) ++ "_" ++ hex (Twilio.grants_identity p) ++ "_"
  ++ voice_field (Twilio.grants_voice p) ++ "_"
  ++ hex_Z (Twilio.iat p) ++ "_" ++ hex_Z (Twilio.exp p) ++ "_"
  ++ hex (Twilio.iss p) ++ "_" ++ hex (Twilio.sub p).

Definition hex_decode_payload (s : string) : option Twilio.JwtPayload :=
  match split_char "_" s with
  | (a, Some r1) =>
  match split_char "_" r1 with
  | (b, Some r2) =>
  match split_char "_" r2 with
  | (c, Some r3) =>
  match split_char "_" r3 with
  | (d, Some r4) =>
  match split_char "_" r4 with
  | (e, Some r5) =>
  match split_char "_" r5 with
  | (f, Some g) =>
      match unhex a, unhex b, unvoice_field c, unhex_Z d, unhex_Z e, unhex f, unhex g with
      | Some jti, Some ident, Some voice, Some iat, Some exp, Some iss, Some sub =>
          Some {| Twilio.jti := jti; Twilio.grants_identity := ident;
                  Twilio.grants_voice := voice; Twilio.iat := iat; Twilio.exp := exp;
                  Twilio.iss := iss; Twilio.sub := sub |}
      | _, _, _, _, _, _, _ => None
      end
  | (_, None) => None
  end
  | (_, None) => None
  end
  | (_, None) => None
  end
  | (_, None) => None
  end
  | (_, None) => None
  end
  | (_, None) => None
  end.

Definition hex_codec : Twilio.JwtCodec :=
  {| Twilio.encode_header := hex_encode_header;
     Twilio.encode_payload := hex_encode_payload;
     Twilio.hs256 := fun key input => "mac" ++ hex key ++ "x" ++ input |}.

(** The decoder of [hex_codec], with the proofs that it inverts the encoder
    and that the encoder writes no dot. *)
Definition hex_decoder : Twilio.JwtDecoder hex_codec.
Proof.
  assert (Hn : forall a b c d, char_nibble (nibble_char a b c d) = Some (a, b, c, d))
    by (intros [] [] [] []; reflexivity).
  assert (Hu : forall s, unhex (hex s) = Some s).
  { induction s as [|[b0 b1 b2 b3 b4 b5 b6 b7] s IH]; [reflexivity|].
    cbn [hex unhex]. rewrite !Hn, IH. reflexivity. }
  assert (Hz : forall z, unhex_Z (hex_Z z) = Some z).
  { intros z. unfold unhex_Z, hex_Z. rewrite Hu, NilEmpty.isi. simpl.
    now rewrite DecimalZ.of_to. }
  assert (Hneq : forall c a b c0 d, char_nibble c = None ->
                                    (nibble_char a b c0 d =? c)%char = false).
  { intros c a b c0 d Hc. apply Ascii.eqb_neq. intros E. rewrite <- E, Hn in Hc.
    discriminate. }
  assert (Hs : forall c rest, char_nibble c = None ->
               forall s, split_char c (hex s ++ String c rest) = (hex s, Some rest)).
  { intros c rest Hc. induction s as [|[b0 b1 b2 b3 b4 b5 b6 b7] s IH]; simpl.
    - now rewrite Ascii.eqb_refl.
    - rewrite !Hneq by exact Hc. now rewrite IH. }
  assert (Hv : forall v rest,
               split_char "_" (voice_field v ++ String "_" rest) = (voice_field v, Some rest)).
  { intros [[i out]|] rest; [|reflexivity].
    destruct i as [[]|], out as [app|]; simpl; try reflexivity;
      change (String "_" rest) with (String "_"%char rest);
      now rewrite (Hs "_"%char rest eq_refl app). }
  assert (Hvu : forall v, unvoice_field (voice_field v) = Some v).
  { intros [[i out]|]; [|reflexivity].
    destruct i as [[]|], out as [app|]; simpl; try rewrite Hu; reflexivity. }
  assert (Hd : forall a b, Twilio.no_dot (a ++ b) = Twilio.no_dot a && Twilio.no_dot b).
  { induction a as [|x a IH]; intros b; simpl; [reflexivity|].
    now rewrite IH, andb_assoc. }
  assert (Hh : forall s, Twilio.no_dot (hex s) = true).
  { induction s as [|[b0 b1 b2 b3 b4 b5 b6 b7] s IH]; simpl; [reflexivity|].
    rewrite !(Hneq "."%char) by reflexivity. exact IH. }
  assert (Hvd : forall v, Twilio.no_dot (voice_field v) = true).
  { intros [[i out]|]; [|reflexivity].
    destruct i as [[]|], out as [app|]; simpl; try apply Hh; reflexivity. }
  refine {| Twilio.decode_header := hex_decode_header;
            Twilio.decode_payload := hex_decode_payload |}.
  - intros [cty typ alg]. unfold hex_decode_header; simpl. unfold hex_encode_header; simpl.
    rewrite (Hs "_"%char _ eq_refl cty), (Hs "_"%char _ eq_refl typ), !Hu. reflexivity.
  - intros [jti ident voice iat exp iss sub].
    unfold hex_decode_payload; simpl. unfold hex_encode_payload, hex_Z; simpl.
    rewrite (Hs "_"%char _ eq_refl jti), (Hs "_"%char _ eq_refl ident), Hv,
      (Hs "_"%char _ eq_refl), (Hs "_"%char _ eq_refl), (Hs "_"%char _ eq_refl iss).
    rewrite !Hu, Hvu. fold (hex_Z iat) (hex_Z exp). rewrite !Hz. reflexivity.
  - intros h. simpl. unfold hex_encode_header. rewrite !Hd, !Hh. reflexivity.
  - intros p. simpl. unfold hex_encode_payload, hex_Z. rewrite !Hd, !Hh, Hvd. reflexivity.
Defined.

(* ================================================================= *)
(** ** Proof automation *)

Ltac unfold_monad :=
  unfold try_catch, bind, completions_create, socket_emit, console_log,
    console_error, perform, spawn, lift, ret.

Ltac tidy_trace := repeat rewrite <- app_assoc; simpl.

(* ================================================================= *)
(** ** Startup *)

Lemma missing_false (x : option string) :
  missing x = false <-> exists s, x = Some s /\ s <> "".
Proof.
  destruct x as [s|]; simpl; split.
  - intros H. exists s. split; [reflexivity|].
    intros ->. discriminate.
  - intros (s' & [= <-] & Hs). now apply String.eqb_neq.
  - discriminate.
  - intros (s' & [=] & _).
Qed.

(** The process reaches [server.listen] exactly when the five guarded
    variables are set; no other variable is consulted. *)
Lemma startup_listening (env : ProcessEnv) :
  (exists cfg, startup env = Listening cfg) <->
  missing (getenv env "MONGO_URI") = false /\
  missing (getenv env "TWILIO_ACCOUNT_SID") = false /\
  missing (getenv env "TWILIO_AUTH_TOKEN") = false /\
  missing (getenv env "TWILIO_PHONE_NUMBER") = false /\
  missing (getenv env "OPENAI_API_KEY") = false.
Proof.
  unfold startup; simpl.
  destruct (missing (getenv env "MONGO_URI")),
           (missing (getenv env "TWILIO_ACCOUNT_SID")),
           (missing (getenv env "TWILIO_AUTH_TOKEN")),
           (missing (getenv env "TWILIO_PHONE_NUMBER")),
           (missing (getenv env "OPENAI_API_KEY")); simpl;
    split; try (intros (c & [=]); fail); try (intuition discriminate).
  intros _. eexists. reflexivity.
Qed.

(** C2: with the telephony API key, the API secret and the outbound
    application identifier all unset, the startup guards still pass and the
    server listens; the first [GET /token] then throws inside the
    [AccessToken] constructor and is answered with status 500. *)
Theorem startup_accepts_missing_signing_credentials :
  signing_configured (read_config base_env) = false /\
  startup base_env = Listening (read_config base_env) /\
  get_token (read_config base_env) healthy bare_request empty_world =
    ({| statusCode := 500; contentType := "text/html";
        content := ErrorPage (Error "keySid is required") |}, empty_world).
Proof. repeat split. Qed.

(* ================================================================= *)
(** ** Token issuer *)

Lemma append_dot_nonempty (a b : string) : a ++ "." ++ b <> "".
Proof. destruct a; simpl; discriminate. Qed.

Lemma toJwt_nonempty `{codec : Twilio.JwtCodec} (now : Z) (t : Twilio.AccessToken) :
  Twilio.toJwt now t <> "".
Proof. unfold Twilio.toJwt, Twilio.sign. apply append_dot_nonempty. Qed.

(** The handler reads nothing but the configuration and the clock. *)
Lemma token_handler_constant `{codec : Twilio.JwtCodec}
    (cfg : Config) (o1 o2 : Oracle) (req1 req2 : Request) (w : World) :
  now o1 = now o2 ->
  token_handler cfg o1 req1 w = token_handler cfg o2 req2 w.
Proof. intros H. unfold token_handler. rewrite H. reflexivity. Qed.

Lemma get_token_world `{codec : Twilio.JwtCodec}
    (cfg : Config) (o : Oracle) (req : Request) (w : World) :
  snd (get_token cfg o req w) = w.
Proof.
  unfold get_token, express, token_handler, bind, lift, ret.
  destruct (Twilio.new_AccessToken _ _ _ _); reflexivity.
Qed.

Lemma append_assoc (a b c : string) : (a ++ b) ++ c = a ++ (b ++ c).
Proof. induction a as [|x a IH]; simpl; [reflexivity | now rewrite IH]. Qed.

Lemma split_dot_app (a b : string) :
  Twilio.no_dot a = true ->
  Twilio.split_dot (a ++ String "."%char b) = (a, Some b).
Proof.
  induction a as [|x a IH]; simpl; intros H; [reflexivity|].
  apply andb_prop in H as [Hx Ha]. apply negb_true_iff in Hx.
  rewrite Hx, (IH Ha). reflexivity.
Qed.

(** Reading back what [sign] wrote, under the same key, gives the header
    and the claims that were signed. *)
Lemma verify_sign `{decoder : Twilio.JwtDecoder} (p : Twilio.JwtPayload) (key : string) :
  Twilio.verify (Twilio.sign p key) key = Some (Twilio.jwt_header, p).
Proof.
  unfold Twilio.verify, Twilio.sign. cbn [append].
  rewrite append_assoc. cbn [append].
  rewrite (split_dot_app _ _ (Twilio.header_no_dot _)).
  rewrite (split_dot_app _ _ (Twilio.payload_no_dot _)).
  rewrite String.eqb_refl, Twilio.decode_encode_header, Twilio.decode_encode_payload.
  reflexivity.
Qed.

(** C7: under a complete signing configuration and a clock in the range of
    [Date], every [GET /token] is answered 200 with a non-empty token
    string.  Read back under the configured secret, that string carries the
    identity "caller", an issue time and an expiry exactly 3600 seconds
    apart, and a voice grant allowing incoming calls and outgoing calls to
    the configured application, issued by the API key on behalf of the
    account.  The world is left as it was, so nothing is persisted and no
    service is called. *)
Theorem token_issued_for_fixed_identity `{decoder : Twilio.JwtDecoder}
    (cfg : Config) (o : Oracle) (req : Request) (w : World) :
  signing_configured cfg = true ->
  (0 <= now o <= 8640000000000000)%Z ->
  exists (account key secret app token : string),
    TWILIO_ACCOUNT_SID cfg = Some account /\
    TWILIO_API_KEY cfg = Some key /\
    TWILIO_API_SECRET cfg = Some secret /\
    TWILIO_APP_SID cfg = Some app /\
    get_token cfg o req w =
      ({| statusCode := 200; contentType := "application/json";
          content := Json_token token |}, w) /\
    token <> "" /\
    Twilio.verify token secret =
      Some ({| Twilio.cty := "twilio-fpa;v=1"; Twilio.typ := "JWT"; Twilio.alg := "HS256" |},
            {| Twilio.jti := key ++ "-" ++ decimal (now o / 1000);
               Twilio.grants_identity := "caller";
               Twilio.grants_voice :=
                 Some {| Twilio.incoming_allow := Some true;
                         Twilio.outgoing_application_sid := Some app |};
               Twilio.iat := (now o / 1000)%Z;
               Twilio.exp := (now o / 1000 + 3600)%Z;
               Twilio.iss := key;
               Twilio.sub := account |}).
Proof.
  unfold signing_configured. intros H _.
  apply andb_prop in H as [H Happ]. apply andb_prop in H as [H Hsec].
  apply andb_prop in H as [Hacc Hkey].
  apply negb_true_iff in Hacc, Hkey, Hsec, Happ.
  pose proof Happ as Happ'.
  apply missing_false in Hacc as (a & Ea & Ha), Hkey as (k & Ek & Hk),
    Hsec as (s & Es & Hs), Happ as (app & Eapp & Hap).
  apply String.eqb_neq in Ha, Hk, Hs.
  exists a, k, s, app.
  exists (Twilio.toJwt (now o)
            (Twilio.addGrant
               {| Twilio.accountSid := a; Twilio.keySid := k; Twilio.secret := s;
                  Twilio.identity := "caller"; Twilio.ttl := 3600; Twilio.grants := [] |}
               {| Twilio.outgoingApplicationSid := Some app;
                  Twilio.incomingAllow := true |})).
  repeat (split; [assumption|]).
  split.
  { unfold get_token, express, token_handler, bind, lift, ret, Twilio.new_AccessToken.
    rewrite Ea, Ek, Es, Eapp, Ha, Hk, Hs. reflexivity. }
  split; [apply toJwt_nonempty|].
  unfold Twilio.toJwt. rewrite verify_sign. f_equal. f_equal.
  unfold Twilio.claims, Twilio.voice_of, Twilio.addGrant, Twilio.toPayload; simpl.
  unfold Twilio.toPayload; simpl.
  rewrite Eapp in Happ'. simpl in Happ'. rewrite Happ'. reflexivity.
Qed.

Lemma token_issued_for_fixed_identity_witness :
  signing_configured sample_cfg = true /\
  (0 <= now healthy <= 8640000000000000)%Z /\
  exists (account key secret app token : string),
    TWILIO_ACCOUNT_SID sample_cfg = Some account /\
    TWILIO_API_KEY sample_cfg = Some key /\
    TWILIO_API_SECRET sample_cfg = Some secret /\
    TWILIO_APP_SID sample_cfg = Some app /\
    @get_token hex_codec sample_cfg healthy bare_request empty_world =
      ({| statusCode := 200; contentType := "application/json";
          content := Json_token token |}, empty_world) /\
    token <> "" /\
    @Twilio.verify hex_codec hex_decoder token secret =
      Some ({| Twilio.cty := "twilio-fpa;v=1"; Twilio.typ := "JWT"; Twilio.alg := "HS256" |},
            {| Twilio.jti := key ++ "-" ++ decimal (now healthy / 1000);
               Twilio.grants_identity := "caller";
               Twilio.grants_voice :=
                 Some {| Twilio.incoming_allow := Some true;
                         Twilio.outgoing_application_sid := Some app |};
               Twilio.iat := (now healthy / 1000)%Z;
               Twilio.exp := (now healthy / 1000 + 3600)%Z;
               Twilio.iss := key;
               Twilio.sub := account |}).
Proof.
  split; [reflexivity|]. split; [simpl; lia|].
  apply (@token_issued_for_fixed_identity hex_codec hex_decoder
           sample_cfg healthy bare_request empty_world);
    [reflexivity | simpl; lia].
Defined.

(** C9: two [GET /token] exchanges under the same configuration and the same
    clock reading give the same answer whatever the two requests carry,
    whatever the rest of the surroundings and whatever the store holds, and
    neither changes the world. *)
Theorem token_independent_of_request `{codec : Twilio.JwtCodec}
    (cfg : Config) (o1 o2 : Oracle) (req1 req2 : Request) (w1 w2 : World) :
  now o1 = now o2 ->
  fst (get_token cfg o1 req1 w1) = fst (get_token cfg o2 req2 w2) /\
  snd (get_token cfg o1 req1 w1) = w1 /\
  snd (get_token cfg o2 req2 w2) = w2.
Proof.
  intros H. split; [|split; apply get_token_world].
  unfold get_token, express, token_handler, bind, lift, ret. rewrite H.
  destruct (Twilio.new_AccessToken _ _ _ _); reflexivity.
Qed.

Lemma token_independent_of_request_witness :
  now healthy = now store_down /\
  fst (get_token sample_cfg healthy bare_request empty_world) =
    fst (get_token sample_cfg store_down
           (voice_request (JString "+15551234567") (JString "CA123")) empty_world) /\
  snd (get_token sample_cfg healthy bare_request empty_world) = empty_world /\
  snd (get_token sample_cfg store_down
         (voice_request (JString "+15551234567") (JString "CA123")) empty_world)
    = empty_world.
Proof.
  split; [reflexivity|].
  apply (token_independent_of_request sample_cfg healthy store_down).
  reflexivity.
Defined.

(* ================================================================= *)
(** ** Objection bridge *)

Lemma emissions_app (t1 t2 : list Event) :
  emissions (t1 ++ t2)%list = (emissions t1 ++ emissions t2)%list.
Proof. apply filter_app. Qed.

(** The objection handler, path by path. *)
Lemma objection_handler_service_error
    (o : Oracle) (socket : SocketId) (message : string) (w : World) (e : JsError) :
  completion o (objection_request message) = Throw e ->
  objection_handler o socket message w =
    (Normal tt,
     {| callLogs := callLogs w; objections := objections w;
        trace := (trace w ++ [ ConsoleLog (ProcessingObjection message);
                               CompletionsCreate (objection_request message);
                               ConsoleError (FailedToGenerate e);
                               SocketEmit socket "suggestion" (Some failure_text) ])%list;
        pending := pending w |}).
Proof.
  intros H. unfold objection_handler. unfold_monad. simpl. rewrite H. simpl.
  tidy_trace. reflexivity.
Qed.

Lemma objection_handler_no_content
    (o : Oracle) (socket : SocketId) (message : string) (w : World)
    (r : OpenAI.ChatCompletion) (e : JsError) :
  completion o (objection_request message) = Normal r ->
  first_content r = Throw e ->
  objection_handler o socket message w =
    (Normal tt,
     {| callLogs := callLogs w; objections := objections w;
        trace := (trace w ++ [ ConsoleLog (ProcessingObjection message);
                               CompletionsCreate (objection_request message);
                               ConsoleError (FailedToGenerate e);
                               SocketEmit socket "suggestion" (Some failure_text) ])%list;
        pending := pending w |}).
Proof.
  intros H1 H2. unfold objection_handler. unfold_monad. simpl. rewrite H1. simpl.
  rewrite H2. simpl. tidy_trace. reflexivity.
Qed.

Lemma objection_handler_invalid
    (o : Oracle) (socket : SocketId) (message : string) (w : World)
    (r : OpenAI.ChatCompletion) (suggestion : option string) (e : JsError) :
  completion o (objection_request message) = Normal r ->
  first_content r = Normal suggestion ->
  Objection.validate (Objection.create (now o) message suggestion) = Throw e ->
  objection_handler o socket message w =
    (Normal tt,
     {| callLogs := callLogs w; objections := objections w;
        trace := (trace w ++ [ ConsoleLog (ProcessingObjection message);
                               CompletionsCreate (objection_request message);
                               ConsoleLog (AISuggestion suggestion);
                               ConsoleError (FailedToGenerate e);
                               SocketEmit socket "suggestion" (Some failure_text) ])%list;
        pending := pending w |}).
Proof.
  intros H1 H2 H3. unfold objection_handler. unfold_monad. simpl. rewrite H1. simpl.
  rewrite H2. simpl. unfold Objection_save. rewrite H3. simpl.
  tidy_trace. reflexivity.
Qed.

Lemma objection_handler_store_fault
    (o : Oracle) (socket : SocketId) (message : string) (w : World)
    (r : OpenAI.ChatCompletion) (suggestion : option string) (d : Objection.doc) :
  completion o (objection_request message) = Normal r ->
  first_content r = Normal suggestion ->
  Objection.validate (Objection.create (now o) message suggestion) = Normal d ->
  dbFault o = true ->
  objection_handler o socket message w =
    (Normal tt,
     {| callLogs := callLogs w; objections := objections w;
        trace := (trace w ++ [ ConsoleLog (ProcessingObjection message);
                               CompletionsCreate (objection_request message);
                               ConsoleLog (AISuggestion suggestion);
                               ConsoleError (FailedToGenerate MongoNetworkError);
                               SocketEmit socket "suggestion" (Some failure_text) ])%list;
        pending := pending w |}).
Proof.
  intros H1 H2 H3 H4. unfold objection_handler. unfold_monad. simpl. rewrite H1. simpl.
  rewrite H2. simpl. unfold Objection_save. rewrite H3, H4. simpl.
  tidy_trace. reflexivity.
Qed.

Lemma objection_handler_saved
    (o : Oracle) (socket : SocketId) (message : string) (w : World)
    (r : OpenAI.ChatCompletion) (suggestion : option string) (d : Objection.doc) :
  completion o (objection_request message) = Normal r ->
  first_content r = Normal suggestion ->
  Objection.validate (Objection.create (now o) message suggestion) = Normal d ->
  dbFault o = false ->
  objection_handler o socket message w =
    (Normal tt,
     {| callLogs := callLogs w; objections := (objections w ++ [d])%list;
        trace := (trace w ++ [ ConsoleLog (ProcessingObjection message);
                               CompletionsCreate (objection_request message);
                               ConsoleLog (AISuggestion suggestion);
                               InsertObjection d;
                               SocketEmit socket "suggestion" suggestion ])%list;
        pending := pending w |}).
Proof.
  intros H1 H2 H3 H4. unfold objection_handler. unfold_monad. simpl. rewrite H1. simpl.
  rewrite H2. simpl. unfold Objection_save. rewrite H3, H4. simpl.
  tidy_trace. reflexivity.
Qed.

(** Validation of an objection: both strings present and non-empty. *)
Lemma objection_validate_ok (t : Z) (message : string) (suggestion : option string)
    (d : Objection.doc) :
  Objection.validate (Objection.create t message suggestion) = Normal d ->
  exists s, suggestion = Some s /\ message <> "" /\ s <> "" /\
            d = {| Objection.message := message; Objection.response := s;
                   Objection.timestamp := t |}.
Proof.
  unfold Objection.validate, Objection.create; simpl.
  destruct (message =? "") eqn:Em; [discriminate|].
  destruct suggestion as [s|]; simpl; [|discriminate].
  destruct (s =? "") eqn:Es; [discriminate|].
  intros [= <-]. exists s. apply String.eqb_neq in Em, Es. auto.
Qed.

Lemma objection_validate_accepts (t : Z) (message s : string) :
  message <> "" -> s <> "" ->
  Objection.validate (Objection.create t message (Some s)) =
    Normal {| Objection.message := message; Objection.response := s;
              Objection.timestamp := t |}.
Proof.
  intros Hm Hs. apply String.eqb_neq in Hm, Hs.
  unfold Objection.validate, Objection.create; simpl. rewrite Hm, Hs. reflexivity.
Qed.

(** C3: when the completion-service call fails, the handler emits exactly
    the text "Failed to generate suggestion." to the originating connection
    and nothing else; it never reaches the save, and both collections are
    left as they were. *)
Theorem completion_failure_emits_fixed_text
    (o : Oracle) (socket : SocketId) (message : string) (w : World) (e : JsError) :
  completion o (objection_request message) = Throw e ->
  let w' := snd (on_objection o socket message w) in
  trace w' = (trace w ++ [ ConsoleLog (ProcessingObjection message);
                           CompletionsCreate (objection_request message);
                           ConsoleError (FailedToGenerate e);
                           SocketEmit socket "suggestion"
                             (Some "Failed to generate suggestion.") ])%list /\
  emissions (trace w') =
    (emissions (trace w)
     ++ [SocketEmit socket "suggestion" (Some "Failed to generate suggestion.")])%list /\
  objections w' = objections w /\
  callLogs w' = callLogs w.
Proof.
  intros H. unfold on_objection.
  rewrite (objection_handler_service_error o socket message w e H). simpl.
  rewrite emissions_app. repeat split; reflexivity.
Qed.

Lemma completion_failure_emits_fixed_text_witness :
  completion service_down (objection_request "price is too high") = Throw (APIError "503") /\
  let w' := snd (on_objection service_down "socket-1" "price is too high" empty_world) in
  trace w' = (trace empty_world
              ++ [ ConsoleLog (ProcessingObjection "price is too high");
                   CompletionsCreate (objection_request "price is too high");
                   ConsoleError (FailedToGenerate (APIError "503"));
                   SocketEmit "socket-1" "suggestion"
                     (Some "Failed to generate suggestion.") ])%list /\
  emissions (trace w') =
    (emissions (trace empty_world)
     ++ [SocketEmit "socket-1" "suggestion" (Some "Failed to generate suggestion.")])%list /\
  objections w' = objections empty_world /\
  callLogs w' = callLogs empty_world.
Proof.
  split; [reflexivity|].
  apply (completion_failure_emits_fixed_text service_down "socket-1"
           "price is too high" empty_world (APIError "503")).
  reflexivity.
Defined.

(** C5: when the completion service answers with a suggestion, the save is
    awaited first.  If it succeeds (message and suggestion non-empty, store
    available) exactly one Objection record is appended, holding the input
    message and the suggestion, its insert precedes the emission in the
    trace, and the suggestion goes to the originating connection alone.  If
    the save fails, the round trip fails as a whole: no record is added and
    the connection receives the failure text instead. *)
Theorem objection_success_persists_then_emits
    (o : Oracle) (socket : SocketId) (message s : string) (w : World)
    (r : OpenAI.ChatCompletion) :
  completion o (objection_request message) = Normal r ->
  first_content r = Normal (Some s) ->
  let w' := snd (on_objection o socket message w) in
  let saved := negb (message =? "") && negb (s =? "") && negb (dbFault o) in
  let d := {| Objection.message := message; Objection.response := s;
              Objection.timestamp := now o |} in
  (saved = true ->
     objections w' = (objections w ++ [d])%list /\
     trace w' = (trace w ++ [ ConsoleLog (ProcessingObjection message);
                              CompletionsCreate (objection_request message);
                              ConsoleLog (AISuggestion (Some s));
                              InsertObjection d;
                              SocketEmit socket "suggestion" (Some s) ])%list /\
     emissions (trace w') =
       (emissions (trace w) ++ [SocketEmit socket "suggestion" (Some s)])%list) /\
  (saved = false ->
     objections w' = objections w /\
     emissions (trace w') =
       (emissions (trace w) ++ [SocketEmit socket "suggestion" (Some failure_text)])%list).
Proof.
  intros Hc Hf. cbv zeta. unfold on_objection. split.
  - intros Hs.
    apply andb_prop in Hs as [Hs Hdb]. apply andb_prop in Hs as [Hm Hs].
    apply negb_true_iff in Hm, Hs, Hdb. apply String.eqb_neq in Hm, Hs.
    rewrite (objection_handler_saved o socket message w r (Some s) _ Hc Hf
               (objection_validate_accepts (now o) message s Hm Hs) Hdb).
    simpl. rewrite emissions_app. repeat split; reflexivity.
  - intros Hs.
    destruct (Objection.validate (Objection.create (now o) message (Some s)))
      as [d|e] eqn:Hv.
    + destruct (dbFault o) eqn:Hdb.
      * rewrite (objection_handler_store_fault o socket message w r (Some s) d
                   Hc Hf Hv Hdb).
        simpl. rewrite emissions_app. split; reflexivity.
      * apply objection_validate_ok in Hv as (s' & [= <-] & Hm & Hs' & _).
        apply String.eqb_neq in Hm, Hs'. rewrite Hm, Hs' in Hs. discriminate.
    + rewrite (objection_handler_invalid o socket message w r (Some s) e Hc Hf Hv).
      simpl. rewrite emissions_app. split; reflexivity.
Qed.

Lemma objection_success_persists_then_emits_witness :
  completion healthy (objection_request "price is too high")
    = Normal (reply (Some "Anchor on value, not price.")) /\
  first_content (reply (Some "Anchor on value, not price."))
    = Normal (Some "Anchor on value, not price.") /\
  objections (snd (on_objection healthy "socket-1" "price is too high" empty_world)) =
    [ {| Objection.message := "price is too high";
         Objection.response := "Anchor on value, not price.";
         Objection.timestamp := now healthy |} ] /\
  emissions (trace (snd (on_objection healthy "socket-1" "price is too high" empty_world))) =
    [ SocketEmit "socket-1" "suggestion" (Some "Anchor on value, not price.") ].
Proof.
  split; [reflexivity|]. split; [reflexivity|].
  pose proof (objection_success_persists_then_emits healthy "socket-1"
                "price is too high" "Anchor on value, not price." empty_world
                (reply (Some "Anchor on value, not price."))
                eq_refl eq_refl) as [Hsaved _].
  destruct (Hsaved eq_refl) as (Hobj & _ & Hem).
  split; [exact Hobj | exact Hem].
Defined.

(** C8: every [objection] event is handled to completion without an
    uncaught throw and adds exactly one emission to the trace, a
    [suggestion] on the connection the message came from.  Whenever the
    processing fails (service error, no first choice, null content,
    validation failure at the save, store fault) that one emission carries
    the failure text. *)
Theorem objection_emits_exactly_one
    (o : Oracle) (socket : SocketId) (message : string) (w : World) :
  exists payload : string,
    fst (on_objection o socket message w) = Normal tt /\
    emissions (trace (snd (on_objection o socket message w))) =
      (emissions (trace w) ++ [SocketEmit socket "suggestion" (Some payload)])%list /\
    (ProcessingFails o message -> payload = failure_text).
Proof.
  unfold on_objection.
  destruct (completion o (objection_request message)) as [r|e] eqn:Hc.
  2:{ exists failure_text.
      rewrite (objection_handler_service_error o socket message w e Hc). simpl.
      rewrite emissions_app. auto. }
  destruct (first_content r) as [suggestion|e] eqn:Hf.
  2:{ exists failure_text.
      rewrite (objection_handler_no_content o socket message w r e Hc Hf). simpl.
      rewrite emissions_app. auto. }
  destruct (Objection.validate (Objection.create (now o) message suggestion))
    as [d|e] eqn:Hv.
  2:{ exists failure_text.
      rewrite (objection_handler_invalid o socket message w r suggestion e Hc Hf Hv).
      simpl. rewrite emissions_app. auto. }
  destruct (dbFault o) eqn:Hdb.
  { exists failure_text.
    rewrite (objection_handler_store_fault o socket message w r suggestion d Hc Hf Hv Hdb).
    simpl. rewrite emissions_app. auto. }
  pose proof Hv as Hv'.
  apply objection_validate_ok in Hv' as (s & -> & _ & _ & _).
  exists s.
  rewrite (objection_handler_saved o socket message w r (Some s) d Hc Hf Hv Hdb).
  simpl. rewrite emissions_app. repeat split.
  intros [e He | r' Hr Hch | r' Hr Hn | r' sg e Hr Hsg He | Hfault].
  - congruence.
  - assert (r' = r) by congruence. subst r'.
    unfold first_content in Hf. rewrite Hch in Hf. discriminate.
  - assert (r' = r) by congruence. subst r'. congruence.
  - assert (r' = r) by congruence. subst r'.
    assert (sg = Some s) by congruence. subst sg. congruence.
  - congruence.
Qed.

(* ================================================================= *)
(** ** Call router *)

Lemma to_dialable_checkable (To : JsValue) :
  to_dialable To = true -> to_checkable To = true.
Proof.
  unfold to_checkable. destruct To as [| |b|n safe|s| |]; simpl; try discriminate; auto.
  - intros H. now rewrite H.
  - intros H. now rewrite H.
  - intros _. apply orb_true_r.
Qed.

(** On a dialable [To] under a legal caller id, line 128 builds the
    [<Dial>] and the answer is the routing document. *)
Lemma voice_answer_dialable (cfg : Config) (To : JsValue) :
  caller_legal cfg = true -> to_dialable To = true ->
  voice_answer cfg To = routed cfg To.
Proof.
  unfold caller_legal, voice_answer, routed, routing_document, Twilio.dial.
  intros Hc HTo. rewrite Hc.
  destruct To as [| |b|n safe|s| |]; simpl in HTo; try discriminate; simpl.
  - reflexivity.
  - apply negb_true_iff in HTo. subst b. reflexivity.
  - apply Z.eqb_eq in HTo. subst n. reflexivity.
  - rewrite HTo. reflexivity.
Qed.

(** With [null] for [To] the element is skipped: the answer is the empty
    document. *)
Lemma voice_answer_null (cfg : Config) :
  voice_answer cfg JNull =
    {| statusCode := 200; contentType := "text/xml";
       content := Xml {| Twilio.verbs := [] |} |}.
Proof. reflexivity. Qed.

(** The handler under Express, once line 110 has been passed: the logs and
    the started write are in the world whether or not line 128 throws. *)
Lemma voice_handler_returns
    (cfg : Config) (o : Oracle) (req : Request) (w : World) :
  to_checkable (own_property (body req) "To") = true ->
  express (voice_handler cfg o req) w =
    (voice_answer cfg (own_property (body req) "To"),
     {| callLogs := callLogs w; objections := objections w;
        trace := (trace w ++ request_log cfg (own_property (body req) "To"))%list;
        pending := (pending w
                    ++ [SaveCallLog
                          (CallLog.create (now o) (own_property (body req) "CallSid")
                             (own_property (body req) "To") (JString "initiated"))
                          (own_property (body req) "To")])%list |}).
Proof.
  unfold express, voice_handler, to_checkable, request_log, to_invalid, voice_answer.
  generalize (own_property (body req) "To") as To. intros To HTo.
  destruct (truthy To) eqn:Ht; cbn -[Twilio.dial] in *.
  - destruct To; try discriminate. cbn -[Twilio.dial].
    unfold_monad. cbn -[Twilio.dial].
    destruct (String.prefix "client:" s); cbn -[Twilio.dial];
      destruct (Twilio.dial _ _ _); cbn -[Twilio.dial];
      repeat rewrite <- app_assoc; reflexivity.
  - unfold_monad. cbn -[Twilio.dial].
    destruct (Twilio.dial _ _ _); cbn -[Twilio.dial];
      repeat rewrite <- app_assoc; reflexivity.
Qed.

Lemma voice_handler_throws
    (cfg : Config) (o : Oracle) (req : Request) (w : World) :
  to_checkable (own_property (body req) "To") = false ->
  voice_handler cfg o req w =
    (Throw (TypeError "To.startsWith is not a function"), w).
Proof.
  unfold voice_handler, to_checkable.
  generalize (own_property (body req) "To") as To. intros To HTo.
  apply orb_false_iff in HTo as [HTo Hs]. apply negb_false_iff in HTo.
  destruct To; simpl in HTo, Hs; try discriminate;
    unfold_monad; simpl; try rewrite HTo; reflexivity.
Qed.

(** The one pending write, settled: accepted, or rejected and logged. *)
Lemma run_job_accepted (o : Oracle) (d : CallLog.draft) (To : JsValue) (w : World)
    (doc : CallLog.doc) :
  CallLog.validate d = Normal doc ->
  dbFault o = false ->
  existsb (CallLog.has_id (CallLog._id doc)) (callLogs w) = false ->
  run_job o (SaveCallLog d To) w =
    (Normal tt,
     {| callLogs := (callLogs w ++ [doc])%list; objections := objections w;
        trace := (trace w ++ [InsertCallLog doc; ConsoleLog (InsertedData To)])%list;
        pending := pending w |}).
Proof.
  intros Hv Hdb Hex. unfold run_job, CallLog_save. unfold_monad.
  rewrite Hv, Hdb, Hex. simpl. tidy_trace. reflexivity.
Qed.

Lemma run_job_rejected (o : Oracle) (d : CallLog.draft) (To : JsValue) (w : World)
    (e : JsError) :
  save_error o d w = Some e ->
  run_job o (SaveCallLog d To) w =
    (Normal tt,
     {| callLogs := callLogs w; objections := objections w;
        trace := (trace w ++ [ConsoleError (FailedToSaveCallLog e)])%list;
        pending := pending w |}).
Proof.
  unfold save_error, run_job, CallLog_save. unfold_monad.
  destruct (CallLog.validate d) as [doc|e'].
  - destruct (dbFault o).
    + intros [= <-]. reflexivity.
    + destruct (existsb _ _); [|discriminate]. intros [= <-]. reflexivity.
  - intros [= <-]. reflexivity.
Qed.

Lemma save_error_none (o : Oracle) (d : CallLog.draft) (w : World) :
  save_error o d w = None ->
  exists doc, CallLog.validate d = Normal doc /\ dbFault o = false /\
              existsb (CallLog.has_id (CallLog._id doc)) (callLogs w) = false.
Proof.
  unfold save_error. destruct (CallLog.validate d) as [doc|e]; [|discriminate].
  destruct (dbFault o); [discriminate|].
  destruct (existsb _ _) eqn:E; [discriminate|]. intros _. exists doc. auto.
Qed.

(** A whole exchange from a world with no write in flight. *)
Lemma post_voice_checkable
    (cfg : Config) (o : Oracle) (req : Request) (w : World) :
  pending w = [] ->
  to_checkable (own_property (body req) "To") = true ->
  post_voice cfg o req w =
    (voice_answer cfg (own_property (body req) "To"),
     snd (run_job o
            (SaveCallLog
               (CallLog.create (now o) (own_property (body req) "CallSid")
                  (own_property (body req) "To") (JString "initiated"))
               (own_property (body req) "To"))
            {| callLogs := callLogs w; objections := objections w;
               trace := (trace w ++ request_log cfg (own_property (body req) "To"))%list;
               pending := [] |})).
Proof.
  intros Hp HTo. unfold post_voice.
  rewrite (voice_handler_returns cfg o req w HTo).
  unfold settle. cbn [pending callLogs objections trace]. rewrite Hp. reflexivity.
Qed.

Lemma post_voice_throws
    (cfg : Config) (o : Oracle) (req : Request) (w : World) :
  pending w = [] ->
  to_checkable (own_property (body req) "To") = false ->
  post_voice cfg o req w =
    ({| statusCode := 500; contentType := "text/html";
        content := ErrorPage (TypeError "To.startsWith is not a function") |}, w).
Proof.
  intros Hp HTo. unfold post_voice, express.
  rewrite (voice_handler_throws cfg o req w HTo).
  unfold settle. rewrite Hp. simpl. destruct w; simpl in *. subst. reflexivity.
Qed.

Lemma checkRequired_some (c : Cast) (s : string) :
  checkRequired c = Some s <-> c = CastOk s /\ s <> "".
Proof.
  destruct c as [s'| |]; simpl.
  - split.
    + destruct (s' =? "") eqn:E; [discriminate|]. intros [= <-].
      apply String.eqb_neq in E. auto.
    + intros [[= <-] Hs]. apply String.eqb_neq in Hs. now rewrite Hs.
  - split; [discriminate | intros [[=] _]].
  - split; [discriminate | intros [[=] _]].
Qed.

(** Validation accepts a call log exactly when both the identifier and the
    number cast to non-empty strings; the record then carries them. *)
Lemma callLog_validate_ok (t : Z) (CallSid To : JsValue) (doc : CallLog.doc) :
  CallLog.validate (CallLog.create t CallSid To (JString "initiated")) = Normal doc ->
  exists sid phone,
    castString CallSid = CastOk sid /\ sid <> "" /\
    castString To = CastOk phone /\ phone <> "" /\
    doc = {| CallLog._id := sid; CallLog.phoneNumber := phone;
             CallLog.status := "initiated"; CallLog.duration := None;
             CallLog.timestamp := t |}.
Proof.
  unfold CallLog.validate, CallLog.create; simpl.
  destruct (checkRequired (castString CallSid)) as [sid|] eqn:Hs; [|discriminate].
  destruct (checkRequired (castString To)) as [phone|] eqn:Hp; [|discriminate].
  intros [= <-]. apply checkRequired_some in Hs as [Hs Hs'], Hp as [Hp Hp'].
  exists sid, phone. auto.
Qed.

Lemma callLog_validate_accepts (t : Z) (CallSid To : JsValue) (sid phone : string) :
  castString CallSid = CastOk sid -> sid <> "" ->
  castString To = CastOk phone -> phone <> "" ->
  CallLog.validate (CallLog.create t CallSid To (JString "initiated")) =
    Normal {| CallLog._id := sid; CallLog.phoneNumber := phone;
              CallLog.status := "initiated"; CallLog.duration := None;
              CallLog.timestamp := t |}.
Proof.
  intros Hs Hs' Hp Hp'. unfold CallLog.validate, CallLog.create; simpl.
  rewrite (proj2 (checkRequired_some _ _) (conj Hs Hs')).
  rewrite (proj2 (checkRequired_some _ _) (conj Hp Hp')). reflexivity.
Qed.

Lemma callLog_validate_missing (t : Z) (CallSid To : JsValue) :
  To = JUndefined \/ CallSid = JUndefined ->
  exists paths,
    CallLog.validate (CallLog.create t CallSid To (JString "initiated")) =
      Throw (ValidationError paths).
Proof.
  unfold CallLog.validate, CallLog.create; simpl.
  intros [-> | ->]; simpl.
  - destruct (checkRequired (castString CallSid)); eexists; reflexivity.
  - eexists; reflexivity.
Qed.

Lemma count_id_app (sid : string) (l : list CallLog.doc) (d : CallLog.doc) :
  count_id sid (l ++ [d])%list =
    (count_id sid l + (if CallLog.has_id sid d then 1 else 0))%nat.
Proof.
  unfold count_id. rewrite filter_app, length_app. simpl.
  destruct (CallLog.has_id sid d); reflexivity.
Qed.

Lemma existsb_count_id (sid : string) (l : list CallLog.doc) :
  existsb (CallLog.has_id sid) l = false <-> count_id sid l = 0%nat.
Proof.
  unfold count_id. induction l as [|d l IH]; simpl; [tauto|].
  destruct (CallLog.has_id sid d); simpl; [split; discriminate | exact IH].
Qed.

Lemma existsb_in_ids (sid : string) (l : list CallLog.doc) :
  existsb (CallLog.has_id sid) l = false <-> ~ In sid (map CallLog._id l).
Proof.
  induction l as [|d l IH]; simpl; [tauto|].
  unfold CallLog.has_id at 1. rewrite orb_false_iff, IH, String.eqb_neq. tauto.
Qed.

Lemma nodup_count_id (sid : string) (l : list CallLog.doc) :
  NoDup (map CallLog._id l) -> (count_id sid l <= 1)%nat.
Proof.
  induction l as [|d l IH]; simpl; intros H; [unfold count_id; simpl; lia|].
  inversion H as [|x xs Hnot Hnd]; subst.
  unfold count_id in *. simpl.
  destruct (CallLog.has_id sid d) eqn:E; simpl; [|auto].
  unfold CallLog.has_id in E. apply String.eqb_eq in E. subst sid.
  apply existsb_in_ids, existsb_count_id in Hnot. unfold count_id in Hnot.
  rewrite Hnot. lia.
Qed.

Lemma nodup_snoc (x : string) (l : list string) :
  NoDup l -> ~ In x l -> NoDup (l ++ [x])%list.
Proof.
  intros Hl Hx. apply NoDup_app; [exact Hl | repeat constructor; auto | ].
  intros a Ha [<- | []]. contradiction.
Qed.

(** What one exchange does to the store: nothing, or one appended record
    that passed validation, met no fault and took a free identifier. *)
Lemma post_voice_store
    (cfg : Config) (o : Oracle) (req : Request) (w : World) :
  pending w = [] ->
  pending (snd (post_voice cfg o req w)) = [] /\
  objections (snd (post_voice cfg o req w)) = objections w /\
  (callLogs (snd (post_voice cfg o req w)) = callLogs w \/
   exists doc,
     callLogs (snd (post_voice cfg o req w)) = (callLogs w ++ [doc])%list /\
     CallLog.validate
       (CallLog.create (now o) (own_property (body req) "CallSid")
          (own_property (body req) "To") (JString "initiated")) = Normal doc /\
     dbFault o = false /\
     existsb (CallLog.has_id (CallLog._id doc)) (callLogs w) = false).
Proof.
  intros Hp.
  destruct (to_checkable (own_property (body req) "To")) eqn:HTo.
  - rewrite (post_voice_checkable cfg o req w Hp HTo). cbn [snd].
    match goal with |- context [run_job o (SaveCallLog ?d ?t) ?w0] =>
      destruct (save_error o d w0) as [e|] eqn:He
    end.
    + rewrite (run_job_rejected _ _ _ _ _ He). simpl. auto.
    + apply save_error_none in He as (doc & Hv & Hdb & Hex).
      rewrite (run_job_accepted _ _ _ _ _ Hv Hdb Hex). simpl.
      repeat split; auto. right. exists doc. auto.
  - rewrite (post_voice_throws cfg o req w Hp HTo). simpl. auto.
Qed.

Lemma post_voice_quiescent
    (cfg : Config) (o : Oracle) (req : Request) (w : World) :
  quiescent w -> quiescent (snd (post_voice cfg o req w)).
Proof.
  intros [Hp Hnd].
  destruct (post_voice_store cfg o req w Hp) as (Hp' & _ & [Hc | (doc & Hc & _ & _ & Hex)]).
  - split; [exact Hp'|]. unfold ids. rewrite Hc. exact Hnd.
  - split; [exact Hp'|]. unfold ids. rewrite Hc, map_app. simpl.
    apply nodup_snoc; [exact Hnd|]. now apply existsb_in_ids.
Qed.

Lemma empty_world_quiescent : quiescent empty_world.
Proof. split; [reflexivity | constructor]. Qed.

(** C4, the claim as stated fails, twice over.  With the store failing a
    valid request is routed but no record is created; and a [To] that is
    present and not client-prefixed but holds a control character gets its
    record while line 128 throws, so the answer is 500. *)
Lemma valid_request_not_always_logged_and_routed :
  ~ logged_and_routed sample_cfg store_down
      (voice_request (JString "+15551234567") (JString "CA123")) empty_world
      "+15551234567" "CA123" /\
  ~ logged_and_routed sample_cfg healthy control_call empty_world control_to "CA123".
Proof.
  split.
  - intros [(d & Hd & _) _]. vm_compute in Hd. exact Hd.
  - intros [_ H]. vm_compute in H. discriminate.
Qed.

(** C4, amended: a request whose [To] is a non-empty string of characters
    XML allows, without the client prefix, and whose [CallSid] casts to a
    non-empty identifier not yet in the collection, handled with no write in
    flight, the store available and a provisioned number XML allows, is
    answered 200 with a routing document that dials [To] under the
    configured caller id, and appends the record (CallSid, To, "initiated"),
    the only one under that identifier. *)
Theorem valid_request_logged_and_routed
    (cfg : Config) (o : Oracle) (req : Request) (w : World) (to sid : string) :
  pending w = [] ->
  own_property (body req) "To" = JString to ->
  to <> "" ->
  String.prefix "client:" to = false ->
  Twilio.xml_legal to = true ->
  caller_legal cfg = true ->
  castString (own_property (body req) "CallSid") = CastOk sid ->
  sid <> "" ->
  count_id sid (callLogs w) = 0%nat ->
  dbFault o = false ->
  let doc := {| CallLog._id := sid; CallLog.phoneNumber := to;
                CallLog.status := "initiated"; CallLog.duration := None;
                CallLog.timestamp := now o |} in
  post_voice cfg o req w =
    ({| statusCode := 200; contentType := "text/xml";
        content := Xml {| Twilio.verbs :=
                            [ Twilio.VDial {| Twilio.callerId := TWILIO_PHONE_NUMBER cfg;
                                              Twilio.number := JString to |} ] |} |},
     {| callLogs := (callLogs w ++ [doc])%list;
        objections := objections w;
        trace := (trace w ++ [ ConsoleLog (NewCallRequest (TWILIO_PHONE_NUMBER cfg) (JString to));
                               InsertCallLog doc;
                               ConsoleLog (InsertedData (JString to)) ])%list;
        pending := [] |}) /\
  count_id sid (callLogs w ++ [doc])%list = 1%nat.
Proof.
  intros Hp HTo Hto Hpre Hlegal Hcaller Hsid Hsid' Hfresh Hdb doc.
  assert (Hc : to_checkable (own_property (body req) "To") = true).
  { rewrite HTo. unfold to_checkable. simpl. apply orb_true_r. }
  rewrite (post_voice_checkable cfg o req w Hp Hc).
  assert (Hv : CallLog.validate
                 (CallLog.create (now o) (own_property (body req) "CallSid")
                    (own_property (body req) "To") (JString "initiated")) = Normal doc).
  { apply callLog_validate_accepts; auto. rewrite HTo. reflexivity. }
  rewrite (run_job_accepted o _ _ _ doc Hv Hdb).
  2:{ simpl. now apply existsb_count_id. }
  split.
  - rewrite HTo, (voice_answer_dialable cfg (JString to) Hcaller Hlegal).
    unfold routed, routing_document, request_log, to_invalid. simpl.
    apply String.eqb_neq in Hto. rewrite Hto, Hpre. simpl.
    tidy_trace. reflexivity.
  - rewrite count_id_app, Hfresh. unfold CallLog.has_id. simpl.
    now rewrite String.eqb_refl.
Qed.

Lemma valid_request_logged_and_routed_witness :
  Twilio.xml_legal "+15551234567" = true /\
  caller_legal sample_cfg = true /\
  count_id "CA123" (callLogs empty_world) = 0%nat /\
  dbFault healthy = false /\
  post_voice sample_cfg healthy
    (voice_request (JString "+15551234567") (JString "CA123")) empty_world =
    ({| statusCode := 200; contentType := "text/xml";
        content := Xml {| Twilio.verbs :=
                            [ Twilio.VDial {| Twilio.callerId := Some "+15550000000";
                                              Twilio.number := JString "+15551234567" |} ] |} |},
     {| callLogs := [ {| CallLog._id := "CA123"; CallLog.phoneNumber := "+15551234567";
                         CallLog.status := "initiated"; CallLog.duration := None;
                         CallLog.timestamp := now healthy |} ];
        objections := [];
        trace := [ ConsoleLog (NewCallRequest (Some "+15550000000") (JString "+15551234567"));
                   InsertCallLog {| CallLog._id := "CA123";
                                    CallLog.phoneNumber := "+15551234567";
                                    CallLog.status := "initiated";
                                    CallLog.duration := None;
                                    CallLog.timestamp := now healthy |};
                   ConsoleLog (InsertedData (JString "+15551234567")) ];
        pending := [] |}).
Proof.
  split; [reflexivity|]. split; [reflexivity|].
  split; [reflexivity|]. split; [reflexivity|].
  apply (valid_request_logged_and_routed sample_cfg healthy
           (voice_request (JString "+15551234567") (JString "CA123")) empty_world
           "+15551234567" "CA123");
    solve [reflexivity | discriminate].
Defined.

(** One exchange on a checkable [To], in full: the answer, what is logged,
    and the two ways the write can end. *)
Lemma post_voice_outcome
    (cfg : Config) (o : Oracle) (req : Request) (w : World) :
  pending w = [] ->
  to_checkable (own_property (body req) "To") = true ->
  fst (post_voice cfg o req w) = voice_answer cfg (own_property (body req) "To") /\
  exists tail,
    trace (snd (post_voice cfg o req w)) =
      (trace w ++ request_log cfg (own_property (body req) "To") ++ tail)%list /\
    ((exists doc,
        tail = [InsertCallLog doc; ConsoleLog (InsertedData (own_property (body req) "To"))] /\
        callLogs (snd (post_voice cfg o req w)) = (callLogs w ++ [doc])%list /\
        save_error o
          (CallLog.create (now o) (own_property (body req) "CallSid")
             (own_property (body req) "To") (JString "initiated")) w = None)
     \/
     (exists e,
        tail = [ConsoleError (FailedToSaveCallLog e)] /\
        callLogs (snd (post_voice cfg o req w)) = callLogs w /\
        save_error o
          (CallLog.create (now o) (own_property (body req) "CallSid")
             (own_property (body req) "To") (JString "initiated")) w = Some e)).
Proof.
  intros Hp HTo. rewrite (post_voice_checkable cfg o req w Hp HTo). cbn [fst snd].
  split; [reflexivity|].
  match goal with |- context [run_job o (SaveCallLog ?d ?t) ?w0] =>
    assert (Hw0 : save_error o d w0 = save_error o d w) by reflexivity;
    destruct (save_error o d w0) as [e|] eqn:He
  end.
  - rewrite (run_job_rejected _ _ _ _ _ He). cbn [snd trace callLogs].
    exists [ConsoleError (FailedToSaveCallLog e)]. split.
    + repeat rewrite <- app_assoc. reflexivity.
    + right. exists e. auto.
  - pose proof He as He'.
    apply save_error_none in He' as (doc & Hv & Hdb & Hex).
    rewrite (run_job_accepted _ _ _ _ _ Hv Hdb Hex). cbn [snd trace callLogs].
    exists [InsertCallLog doc; ConsoleLog (InsertedData (own_property (body req) "To"))].
    split.
    + repeat rewrite <- app_assoc. reflexivity.
    + left. exists doc. auto.
Qed.

Lemma save_error_fault (o : Oracle) (d : CallLog.draft) (w : World) :
  dbFault o = true -> exists e, save_error o d w = Some e.
Proof.
  intros H. unfold save_error. rewrite H.
  destruct (CallLog.validate d); eexists; reflexivity.
Qed.

(** The objection bridge and the token issuer leave the call logs and the
    pending writes alone. *)
Lemma on_objection_call_logs
    (o : Oracle) (socket : SocketId) (message : string) (w : World) :
  callLogs (snd (on_objection o socket message w)) = callLogs w /\
  pending (snd (on_objection o socket message w)) = pending w.
Proof.
  unfold on_objection.
  destruct (completion o (objection_request message)) as [r|e] eqn:Hc.
  2:{ now rewrite (objection_handler_service_error o socket message w e Hc). }
  destruct (first_content r) as [suggestion|e] eqn:Hf.
  2:{ now rewrite (objection_handler_no_content o socket message w r e Hc Hf). }
  destruct (Objection.validate (Objection.create (now o) message suggestion))
    as [d|e] eqn:Hv.
  2:{ now rewrite (objection_handler_invalid o socket message w r suggestion e Hc Hf Hv). }
  destruct (dbFault o) eqn:Hdb.
  - now rewrite (objection_handler_store_fault o socket message w r suggestion d Hc Hf Hv Hdb).
  - now rewrite (objection_handler_saved o socket message w r suggestion d Hc Hf Hv Hdb).
Qed.

Lemma post_voice_consistent
    (cfg : Config) (o : Oracle) (req : Request) (w : World) :
  consistent w -> consistent (snd (post_voice cfg o req w)).
Proof.
  intros [Hq Hwf]. split; [now apply post_voice_quiescent|].
  destruct (post_voice_store cfg o req w (proj1 Hq))
    as (_ & _ & [Hc | (doc & Hc & Hv & _ & _)]); rewrite Hc; [exact Hwf|].
  apply Forall_app. split; [exact Hwf|]. constructor; [|constructor].
  apply callLog_validate_ok in Hv as (sid & phone & _ & Hs & _ & Hph & ->).
  repeat split; assumption.
Qed.

Lemma step_consistent `{codec : Twilio.JwtCodec} (cfg : Config) (i : Input) (w : World) :
  consistent w -> consistent (step cfg i w).
Proof.
  intros H. destruct i as [o req | o req | o socket message]; simpl.
  - now rewrite get_token_world.
  - now apply post_voice_consistent.
  - destruct H as [[Hp Hnd] Hwf].
    destruct (on_objection_call_logs o socket message w) as [Hc Hp'].
    unfold consistent, quiescent, ids. rewrite Hc, Hp'. auto.
Qed.

(** Every world the server reaches from its start is consistent. *)
Lemma run_consistent `{codec : Twilio.JwtCodec} (cfg : Config) (inputs : list Input) :
  forall w, consistent w -> consistent (run cfg inputs w).
Proof.
  induction inputs as [|i inputs IH]; intros w H; simpl; [exact H|].
  apply IH. now apply step_consistent.
Qed.

Lemma empty_world_consistent : consistent empty_world.
Proof. split; [apply empty_world_quiescent | constructor]. Qed.

(** The answer on a [To] that is [null], or dialable under a legal caller
    id. *)
Lemma voice_answer_routable (cfg : Config) (To : JsValue) :
  To = JNull \/ (caller_legal cfg = true /\ to_dialable To = true) ->
  to_checkable To = true /\
  voice_answer cfg To =
    {| statusCode := 200; contentType := "text/xml";
       content :=
         Xml {| Twilio.verbs :=
                  match To with
                  | JNull => []
                  | _ => [ Twilio.VDial {| Twilio.callerId := TWILIO_PHONE_NUMBER cfg;
                                           Twilio.number := To |} ]
                  end |} |}.
Proof.
  intros [-> | [Hc HTo]]; [split; reflexivity|].
  split; [now apply to_dialable_checkable|].
  rewrite (voice_answer_dialable cfg To Hc HTo).
  destruct To; try discriminate; reflexivity.
Qed.

(** Every record in a reachable world was written by one of the [/voice]
    requests that led there. *)
Lemma step_written_by `{codec : Twilio.JwtCodec}
    (cfg : Config) (done : list Input) (i : Input) (w : World) :
  pending w = [] ->
  Forall (written_by done) (callLogs w) ->
  pending (step cfg i w) = [] /\
  Forall (written_by (done ++ [i])%list) (callLogs (step cfg i w)).
Proof.
  intros Hp Hw.
  assert (Hold : Forall (written_by (done ++ [i])%list) (callLogs w)).
  { eapply Forall_impl; [|exact Hw]. intros d (o & req & Hin & H).
    exists o, req. split; [apply in_or_app; now left | exact H]. }
  destruct i as [o req | o req | o socket message]; simpl.
  - rewrite get_token_world. auto.
  - destruct (post_voice_store cfg o req w Hp)
      as (Hp' & _ & [Hc | (doc & Hc & Hv & _ & _)]); (split; [exact Hp'|]);
      rewrite Hc; [exact Hold|].
    apply Forall_app. split; [exact Hold|]. constructor; [|constructor].
    apply callLog_validate_ok in Hv as (sid & phone & Hs & _ & Hph & _ & ->).
    exists o, req. simpl. repeat split; auto.
    apply in_or_app. right. now left.
  - destruct (on_objection_call_logs o socket message w) as [Hc Hp'].
    rewrite Hc, Hp'. auto.
Qed.

Lemma run_written_by `{codec : Twilio.JwtCodec} (cfg : Config) (inputs : list Input) :
  forall done w,
    pending w = [] ->
    Forall (written_by done) (callLogs w) ->
    Forall (written_by (done ++ inputs)%list) (callLogs (run cfg inputs w)).
Proof.
  induction inputs as [|i inputs IH]; intros done w Hp Hw; simpl.
  - now rewrite app_nil_r.
  - destruct (step_written_by cfg done i w Hp Hw) as [Hp' Hw'].
    specialize (IH _ _ Hp' Hw'). now rewrite <- app_assoc in IH.
Qed.

(** C6, the claim as stated fails, in three ways.  A JSON body whose [To]
    is the number 123 passes [!To], has no [startsWith], and line 110
    throws: Express answers 500.  A string [To] with a control character in
    it makes line 128 throw: 500 again.  And for a [null] [To] the answer is
    200 but the document holds no dial instruction. *)
Lemma not_every_request_is_routed :
  ~ always_routed sample_cfg healthy numeric_to empty_world /\
  ~ always_routed sample_cfg healthy control_call empty_world /\
  ~ always_routed sample_cfg healthy null_to_call empty_world.
Proof.
  repeat split; intros (d & H); vm_compute in H; discriminate.
Qed.

(** C6, amended: handled with no write in flight, a request whose [To] is
    [null], or whose [To] is absent, [false], [0] or a string of characters
    XML allows (a missing [To], an empty one and a client-prefixed one
    included) while the provisioned number is of such characters too, is
    answered 200, text/xml, with a routing document: the [<Dial>] of [To]
    under the configured caller id, or the empty response when [To] is
    [null].  A violation of the validation is logged first; the write then
    either succeeds or is rejected, and a rejection (validation, store
    fault, taken identifier) is logged and leaves the collection and the
    answer untouched.  Under a fault of the store the write is always among
    the rejected. *)
Theorem routable_request_is_always_answered
    (cfg : Config) (o : Oracle) (req : Request) (w : World) :
  pending w = [] ->
  own_property (body req) "To" = JNull \/
  (caller_legal cfg = true /\ to_dialable (own_property (body req) "To") = true) ->
  fst (post_voice cfg o req w) =
    {| statusCode := 200; contentType := "text/xml";
       content :=
         Xml {| Twilio.verbs :=
                  match own_property (body req) "To" with
                  | JNull => []
                  | _ => [ Twilio.VDial {| Twilio.callerId := TWILIO_PHONE_NUMBER cfg;
                                           Twilio.number := own_property (body req) "To" |} ]
                  end |} |} /\
  exists tail,
    trace (snd (post_voice cfg o req w)) =
      (trace w
       ++ (if to_invalid (own_property (body req) "To") then [ConsoleError InvalidTo] else [])
       ++ [ConsoleLog (NewCallRequest (TWILIO_PHONE_NUMBER cfg) (own_property (body req) "To"))]
       ++ tail)%list /\
    ((exists doc,
        tail = [InsertCallLog doc; ConsoleLog (InsertedData (own_property (body req) "To"))] /\
        callLogs (snd (post_voice cfg o req w)) = (callLogs w ++ [doc])%list /\
        dbFault o = false)
     \/
     (exists e,
        tail = [ConsoleError (FailedToSaveCallLog e)] /\
        callLogs (snd (post_voice cfg o req w)) = callLogs w)).
Proof.
  intros Hp Hr. apply voice_answer_routable in Hr as [HTo Hans].
  destruct (post_voice_outcome cfg o req w Hp HTo) as (Hres & tail & Htr & Hcases).
  split; [now rewrite Hres|]. exists tail. split.
  - rewrite Htr. unfold request_log. repeat rewrite <- app_assoc. reflexivity.
  - destruct Hcases as [(doc & Ht & Hc & He) | (e & Ht & Hc & _)].
    + left. exists doc. repeat split; auto.
      apply save_error_none in He as (_ & _ & Hdb & _). exact Hdb.
    + right. exists e. auto.
Qed.

Lemma routable_request_is_always_answered_witness :
  pending empty_world = [] /\
  caller_legal sample_cfg = true /\
  to_dialable (own_property (body without_to) "To") = true /\
  fst (post_voice sample_cfg store_down without_to empty_world) =
    {| statusCode := 200; contentType := "text/xml";
       content := Xml {| Twilio.verbs :=
                           [ Twilio.VDial {| Twilio.callerId := Some "+15550000000";
                                             Twilio.number := JUndefined |} ] |} |}.
Proof.
  split; [reflexivity|]. split; [reflexivity|]. split; [reflexivity|].
  apply (routable_request_is_always_answered sample_cfg store_down without_to empty_world);
    [reflexivity | right; split; reflexivity].
Defined.

(** C10, the claim as stated fails: with [CallSid] missing no record is
    written, but when [To] is the number 123, or a string with a control
    character in it, the answer is 500, not the routing document. *)
Lemma missing_sid_is_not_always_routed :
  own_property (body numeric_to_without_sid) "CallSid" = JUndefined /\
  callLogs (snd (post_voice sample_cfg healthy numeric_to_without_sid empty_world))
    = callLogs empty_world /\
  ~ always_routed sample_cfg healthy numeric_to_without_sid empty_world /\
  own_property (body control_call_without_sid) "CallSid" = JUndefined /\
  ~ always_routed sample_cfg healthy control_call_without_sid empty_world.
Proof.
  split; [reflexivity|]. split; [reflexivity|].
  split; [intros (d & H); vm_compute in H; discriminate|].
  split; [reflexivity|].
  intros (d & H). vm_compute in H. discriminate.
Qed.

(** C10, amended: in every world the server reaches, each persisted call
    log has status "initiated" and, for its identifier and its number, the
    non-empty strings that the [CallSid] and the [To] of the request that
    wrote it cast to; identifiers are unique.  A request without [To] or
    without [CallSid] adds no record; and when its [To] is [null], or is
    absent, [false], [0] or a string of characters XML allows while the
    provisioned number is of such characters too, the write is rejected by
    the validation of the required paths, the rejection is logged, and the
    200 routing document is returned all the same (the [<Dial>] of [To], or
    the empty response for [null]). *)
Theorem persisted_call_logs_wellformed `{codec : Twilio.JwtCodec}
    (cfg : Config) (inputs : list Input) (o : Oracle) (req : Request) :
  let w := run cfg inputs empty_world in
  Forall (fun d => CallLog.status d = "initiated" /\
                   CallLog._id d <> "" /\ CallLog.phoneNumber d <> "" /\
                   written_by inputs d) (callLogs w) /\
  NoDup (map CallLog._id (callLogs w)) /\
  (own_property (body req) "To" = JUndefined \/
   own_property (body req) "CallSid" = JUndefined ->
   callLogs (snd (post_voice cfg o req w)) = callLogs w /\
   (own_property (body req) "To" = JNull \/
    (caller_legal cfg = true /\ to_dialable (own_property (body req) "To") = true) ->
    fst (post_voice cfg o req w) =
      {| statusCode := 200; contentType := "text/xml";
         content :=
           Xml {| Twilio.verbs :=
                    match own_property (body req) "To" with
                    | JNull => []
                    | _ => [ Twilio.VDial {| Twilio.callerId := TWILIO_PHONE_NUMBER cfg;
                                             Twilio.number := own_property (body req) "To" |} ]
                    end |} |} /\
    exists paths,
      trace (snd (post_voice cfg o req w)) =
        (trace w
         ++ (if to_invalid (own_property (body req) "To") then [ConsoleError InvalidTo] else [])
         ++ [ConsoleLog (NewCallRequest (TWILIO_PHONE_NUMBER cfg) (own_property (body req) "To"))]
         ++ [ConsoleError (FailedToSaveCallLog (ValidationError paths))])%list)).
Proof.
  intros w.
  destruct (run_consistent cfg inputs empty_world empty_world_consistent)
    as [[Hp Hnd] Hwf].
  pose proof (run_written_by cfg inputs [] empty_world eq_refl (Forall_nil _)) as Hby.
  simpl in Hby. fold w in Hp, Hnd, Hwf, Hby.
  split.
  { apply Forall_forall. intros d Hd.
    pose proof (proj1 (Forall_forall _ _) Hwf d Hd) as (Hs & Hi & Hph).
    pose proof (proj1 (Forall_forall _ _) Hby d Hd). auto. }
  split; [exact Hnd|].
  intros Hmiss.
  destruct (callLog_validate_missing (now o) _ _ Hmiss) as (paths & Hv).
  split.
  - destruct (post_voice_store cfg o req w Hp) as (_ & _ & [Hc | (doc & _ & Hv' & _)]);
      [exact Hc | congruence].
  - intros Hr. apply voice_answer_routable in Hr as [HTo Hans].
    destruct (post_voice_outcome cfg o req w Hp HTo)
      as (Hres & tail & Htr & [(doc & _ & _ & He) | (e & Ht & _ & He)]).
    + unfold save_error in He. rewrite Hv in He. discriminate.
    + split; [now rewrite Hres|]. exists paths.
      unfold save_error in He. rewrite Hv in He. injection He as <-.
      rewrite Htr, Ht. unfold request_log. repeat rewrite <- app_assoc. reflexivity.
Qed.

(** C1, the claim as stated fails: two requests under the identifier CA123
    with different numbers leave the record of the first; the second insert
    is refused on the taken identifier and nothing is overwritten. *)
Lemma resubmission_does_not_overwrite :
  ~ resubmission_overwrites sample_cfg healthy healthy first_call second_call
      empty_world "CA123".
Proof.
  intros (d & Hd & Hphone). vm_compute in Hd. injection Hd as <-.
  vm_compute in Hphone. discriminate.
Qed.

(** C1, amended: of two requests carrying the same [CallSid], handled one
    after the other from a state with no write in flight and unique
    identifiers, the second never adds a second record under that
    identifier and never replaces one.  At most one record under it exists
    after both.  If one exists after the first request, the second leaves
    the whole collection as it was; and whenever the second gets as far as
    the write (its [To] is absent, falsy or a string), that write is
    rejected and the rejection logged.  If it was the first request that
    created the record, the one record under the identifier after both
    holds the first request's data: its [To], "initiated", and its time. *)
Theorem resubmission_keeps_first_record
    (cfg : Config) (o1 o2 : Oracle) (r1 r2 : Request) (w : World) (sid : string) :
  quiescent w ->
  own_property (body r1) "CallSid" = own_property (body r2) "CallSid" ->
  castString (own_property (body r1) "CallSid") = CastOk sid ->
  let w1 := snd (post_voice cfg o1 r1 w) in
  let w2 := snd (post_voice cfg o2 r2 w1) in
  (count_id sid (callLogs w2) <= 1)%nat /\
  (count_id sid (callLogs w1) = 1%nat ->
   callLogs w2 = callLogs w1 /\
   (to_checkable (own_property (body r2) "To") = true ->
    exists e,
      trace w2 =
        (trace w1 ++ request_log cfg (own_property (body r2) "To")
         ++ [ConsoleError (FailedToSaveCallLog e)])%list)) /\
  (count_id sid (callLogs w) = 0%nat ->
   count_id sid (callLogs w1) = 1%nat ->
   exists phone,
     castString (own_property (body r1) "To") = CastOk phone /\
     filter (CallLog.has_id sid) (callLogs w2) =
       [ {| CallLog._id := sid; CallLog.phoneNumber := phone;
            CallLog.status := "initiated"; CallLog.duration := None;
            CallLog.timestamp := now o1 |} ]).
Proof.
  intros Hq Hsame Hsid w1 w2.
  assert (Hq1 : quiescent w1) by (apply post_voice_quiescent; exact Hq).
  assert (Hq2 : quiescent w2) by (apply post_voice_quiescent; exact Hq1).
  assert (Htaken : count_id sid (callLogs w1) = 1%nat ->
            forall doc,
            CallLog.validate
              (CallLog.create (now o2) (own_property (body r2) "CallSid")
                 (own_property (body r2) "To") (JString "initiated")) = Normal doc ->
            existsb (CallLog.has_id (CallLog._id doc)) (callLogs w1) = false -> False).
  { intros Hone doc Hv Hex.
    apply callLog_validate_ok in Hv as (sid' & phone & Hs & _ & _ & _ & ->).
    rewrite <- Hsame, Hsid in Hs. injection Hs as <-.
    simpl in Hex. apply existsb_count_id in Hex.
    rewrite Hex in Hone. discriminate. }
  assert (Hsame2 : count_id sid (callLogs w1) = 1%nat -> callLogs w2 = callLogs w1).
  { intros Hone.
    destruct (post_voice_store cfg o2 r2 w1 (proj1 Hq1))
      as (_ & _ & [Hc | (doc & _ & Hv & _ & Hex)]); [exact Hc|].
    destruct (Htaken Hone doc Hv Hex). }
  split; [apply nodup_count_id; apply Hq2|].
  split.
  - intros Hone. split; [now apply Hsame2|].
    intros HTo.
    destruct (post_voice_outcome cfg o2 r2 w1 (proj1 Hq1) HTo)
      as (_ & tail & Htr & [(doc & _ & _ & He) | (e & Ht & _ & _)]).
    + apply save_error_none in He as (doc' & Hv & _ & Hex).
      destruct (Htaken Hone doc' Hv Hex).
    + exists e. fold w2 in Htr. now rewrite Htr, Ht.
  - intros Hzero Hone. rewrite (Hsame2 Hone).
    destruct (post_voice_store cfg o1 r1 w (proj1 Hq))
      as (_ & _ & [Hc | (doc & Hc & Hv & _ & _)]); fold w1 in Hc.
    + rewrite Hc, Hzero in Hone. discriminate.
    + apply callLog_validate_ok in Hv as (sid' & phone & Hs & _ & Hph & _ & ->).
      rewrite Hsid in Hs. injection Hs as <-.
      exists phone. split; [exact Hph|].
      rewrite Hc, filter_app.
      unfold count_id in Hzero. apply length_zero_iff_nil in Hzero. rewrite Hzero.
      simpl. unfold CallLog.has_id. simpl. now rewrite String.eqb_refl.
Qed.

Lemma resubmission_keeps_first_record_witness :
  quiescent empty_world /\
  own_property (body first_call) "CallSid" = own_property (body second_call) "CallSid" /\
  castString (own_property (body first_call) "CallSid") = CastOk "CA123" /\
  (count_id "CA123"
     (callLogs (snd (post_voice sample_cfg healthy second_call
                       (snd (post_voice sample_cfg healthy first_call empty_world)))))
   <= 1)%nat.
Proof.
  split; [split; [reflexivity | constructor]|].
  split; [reflexivity|]. split; [reflexivity|].
  apply (resubmission_keeps_first_record sample_cfg healthy healthy
           first_call second_call empty_world "CA123");
    [split; [reflexivity | constructor] | reflexivity | reflexivity].
Defined.

(* ================================================================= *)
(** ** Further properties: startup and token issuer *)

(** X1: the process reaches [server.listen], with the configuration read off
    the environment, exactly when the five guarded variables are all set to
    non-empty strings; in every other environment it exits with code 1.  No
    other variable decides the outcome. *)
Theorem startup_listens_or_exits_one (env : ProcessEnv) :
  if forallb (fun name => negb (missing (getenv env name))) guarded
  then startup env = Listening (read_config env)
  else exists msg, startup env = Exited 1 msg.
Proof.
  unfold startup, guarded; simpl.
  destruct (missing (getenv env "MONGO_URI")),
           (missing (getenv env "TWILIO_ACCOUNT_SID")),
           (missing (getenv env "TWILIO_AUTH_TOKEN")),
           (missing (getenv env "TWILIO_PHONE_NUMBER")),
           (missing (getenv env "OPENAI_API_KEY")); simpl;
    solve [reflexivity | eexists; reflexivity].
Qed.

Lemma startup_config (env : ProcessEnv) (cfg : Config) :
  startup env = Listening cfg ->
  cfg = read_config env /\
  missing (TWILIO_ACCOUNT_SID cfg) = false /\
  missing (TWILIO_PHONE_NUMBER cfg) = false.
Proof.
  unfold startup; simpl.
  destruct (missing (getenv env "MONGO_URI")); [discriminate|].
  destruct (missing (getenv env "TWILIO_ACCOUNT_SID")) eqn:Ha; [discriminate|].
  destruct (missing (getenv env "TWILIO_AUTH_TOKEN")); [discriminate|].
  destruct (missing (getenv env "TWILIO_PHONE_NUMBER")) eqn:Hp; [discriminate|].
  destruct (missing (getenv env "OPENAI_API_KEY")); [discriminate|].
  simpl. intros [= <-]. simpl. auto.
Qed.

Lemma new_AccessToken_outcome (a k s : option string) (options : Twilio.AccessTokenOptions) :
  Twilio.opt_identity options <> "" ->
  if negb (missing a) && negb (missing k) && negb (missing s)
  then exists a' k' s',
         a = Some a' /\ k = Some k' /\ s = Some s' /\
         Twilio.new_AccessToken a k s options =
           Normal {| Twilio.accountSid := a'; Twilio.keySid := k'; Twilio.secret := s';
                     Twilio.identity := Twilio.opt_identity options;
                     Twilio.ttl := if (Twilio.opt_ttl options =? 0)%Z then 3600%Z
                                   else Twilio.opt_ttl options;
                     Twilio.grants := [] |}
  else exists msg, Twilio.new_AccessToken a k s options = Throw (Error msg).
Proof.
  intros Hid. apply String.eqb_neq in Hid.
  unfold Twilio.new_AccessToken.
  destruct a as [a'|], k as [k'|], s as [s'|]; simpl;
    try destruct (a' =? "") eqn:Ea; try destruct (k' =? "") eqn:Ek;
    try destruct (s' =? "") eqn:Es; simpl;
    try solve [eexists; reflexivity].
  rewrite Hid. exists a', k', s'. auto.
Qed.

(** X2: [GET /token] is answered 200 with a token exactly when the account
    identifier, the API key and the API secret are all set; otherwise the
    [AccessToken] constructor throws and the answer is 500.  Either way the
    world is left as it was. *)
Theorem token_answer_by_credentials `{codec : Twilio.JwtCodec}
    (cfg : Config) (o : Oracle) (req : Request) (w : World) :
  snd (get_token cfg o req w) = w /\
  if token_credentials cfg
  then exists token,
         fst (get_token cfg o req w) =
           {| statusCode := 200; contentType := "application/json";
              content := Json_token token |} /\ token <> ""
  else exists msg,
         fst (get_token cfg o req w) =
           {| statusCode := 500; contentType := "text/html";
              content := ErrorPage (Error msg) |}.
Proof.
  split; [apply get_token_world|].
  unfold token_credentials, get_token, express, token_handler, bind, lift, ret.
  pose proof (new_AccessToken_outcome (TWILIO_ACCOUNT_SID cfg) (TWILIO_API_KEY cfg)
                (TWILIO_API_SECRET cfg)
                {| Twilio.opt_identity := "caller"; Twilio.opt_ttl := 3600 |}) as H.
  simpl in H. specialize (H ltac:(discriminate)).
  destruct (negb (missing (TWILIO_ACCOUNT_SID cfg)) && negb (missing (TWILIO_API_KEY cfg))
            && negb (missing (TWILIO_API_SECRET cfg))).
  - destruct H as (a & k & s & _ & _ & _ & ->). simpl.
    eexists. split; [reflexivity | apply toJwt_nonempty].
  - destruct H as (msg & ->). simpl. exists msg. reflexivity.
Qed.

(** X3: with the key pair set but the outbound application identifier unset
    or empty, [GET /token] still answers 200; the token it signs grants
    incoming calls and carries no outgoing permission. *)
Theorem token_without_application_has_no_outgoing_grant `{codec : Twilio.JwtCodec}
    (cfg : Config) (o : Oracle) (req : Request) (w : World) :
  token_credentials cfg = true ->
  missing (TWILIO_APP_SID cfg) = true ->
  exists token,
    get_token cfg o req w =
      ({| statusCode := 200; contentType := "application/json";
          content := Json_token (Twilio.toJwt (now o) token) |}, w) /\
    Twilio.grants_voice (Twilio.claims (now o) token) =
      Some {| Twilio.incoming_allow := Some true;
              Twilio.outgoing_application_sid := None |}.
Proof.
  intros Hc Happ.
  unfold token_credentials in Hc.
  pose proof (new_AccessToken_outcome (TWILIO_ACCOUNT_SID cfg) (TWILIO_API_KEY cfg)
                (TWILIO_API_SECRET cfg)
                {| Twilio.opt_identity := "caller"; Twilio.opt_ttl := 3600 |}) as H.
  simpl in H. specialize (H ltac:(discriminate)). rewrite Hc in H.
  destruct H as (a & k & s & _ & _ & _ & H).
  eexists. split.
  - unfold get_token, express, token_handler, bind, lift, ret. rewrite H. reflexivity.
  - unfold Twilio.claims, Twilio.voice_of, Twilio.addGrant, Twilio.toPayload; simpl.
    unfold Twilio.toPayload; simpl. rewrite Happ. reflexivity.
Qed.

Lemma token_without_application_has_no_outgoing_grant_witness :
  token_credentials (read_config env_without_app_sid) = true /\
  missing (TWILIO_APP_SID (read_config env_without_app_sid)) = true /\
  exists token,
    get_token (read_config env_without_app_sid) healthy bare_request empty_world =
      ({| statusCode := 200; contentType := "application/json";
          content := Json_token (Twilio.toJwt (now healthy) token) |}, empty_world) /\
    Twilio.grants_voice (Twilio.claims (now healthy) token) =
      Some {| Twilio.incoming_allow := Some true;
              Twilio.outgoing_application_sid := None |}.
Proof.
  split; [reflexivity|]. split; [reflexivity|].
  apply (token_without_application_has_no_outgoing_grant
           (read_config env_without_app_sid) healthy bare_request empty_world);
    reflexivity.
Defined.

(* ================================================================= *)
(** ** Further properties: call router *)

Lemma post_voice_answer (cfg : Config) (o : Oracle) (req : Request) (w : World) :
  fst (post_voice cfg o req w) =
    if to_checkable (own_property (body req) "To")
    then voice_answer cfg (own_property (body req) "To")
    else {| statusCode := 500; contentType := "text/html";
            content := ErrorPage (TypeError "To.startsWith is not a function") |}.
Proof.
  unfold post_voice.
  destruct (to_checkable (own_property (body req) "To")) eqn:HTo.
  - now rewrite (voice_handler_returns cfg o req w HTo).
  - unfold express. now rewrite (voice_handler_throws cfg o req w HTo).
Qed.

(** X4: the answer to [POST /voice] is decided by the [To] field and the
    provisioned number alone: two requests with the same [To] get the same
    answer whatever their [CallSid], headers and query, whatever the store
    holds or has in flight, and whether or not the store is failing. *)
Theorem routing_answer_depends_on_to_only
    (cfg : Config) (o1 o2 : Oracle) (r1 r2 : Request) (w1 w2 : World) :
  own_property (body r1) "To" = own_property (body r2) "To" ->
  fst (post_voice cfg o1 r1 w1) = fst (post_voice cfg o2 r2 w2).
Proof. intros H. rewrite !post_voice_answer, H. reflexivity. Qed.

Lemma routing_answer_depends_on_to_only_witness :
  own_property (body first_call) "To"
    = own_property (body (voice_request (JString "+15551230001") JNull)) "To" /\
  fst (post_voice sample_cfg healthy first_call empty_world) =
    fst (post_voice sample_cfg store_down
           (voice_request (JString "+15551230001") JNull)
           (snd (post_voice sample_cfg healthy first_call empty_world))).
Proof.
  split; [reflexivity|].
  apply (routing_answer_depends_on_to_only sample_cfg healthy store_down first_call
           (voice_request (JString "+15551230001") JNull)).
  reflexivity.
Defined.

(** Whatever document [dial] returns holds nothing but, at most, one
    [<Dial>] under the caller id it was given. *)
Lemma dial_caller (caller : option string) (To : JsValue) (document : Twilio.VoiceResponse) :
  Twilio.dial Twilio.new_VoiceResponse caller To = Normal document ->
  Forall (fun v => match v with Twilio.VDial d => Twilio.callerId d = caller end)
         (Twilio.verbs document).
Proof.
  unfold Twilio.dial.
  destruct To; try discriminate;
    try (destruct (_ && _); [|discriminate]);
    intros [= <-]; simpl; repeat constructor.
Qed.

(** X5: once the startup guards have passed, every dial instruction in any
    routing document the server returns names a non-empty caller id: the
    provisioned number the guard of line 49 insisted on. *)
Theorem started_server_dials_with_caller_id
    (env : ProcessEnv) (cfg : Config) :
  startup env = Listening cfg ->
  exists caller,
    getenv env "TWILIO_PHONE_NUMBER" = Some caller /\ caller <> "" /\
    forall (o : Oracle) (req : Request) (w : World) (document : Twilio.VoiceResponse),
      content (fst (post_voice cfg o req w)) = Xml document ->
      Forall (fun v => match v with
                       | Twilio.VDial d => Twilio.callerId d = Some caller
                       end) (Twilio.verbs document).
Proof.
  intros Hs. apply startup_config in Hs as (-> & _ & Hp).
  simpl in Hp. apply missing_false in Hp as (caller & Hc & Hne).
  exists caller. repeat split; auto.
  intros o req w document. rewrite post_voice_answer.
  destruct (to_checkable _); [|discriminate].
  unfold voice_answer. simpl. rewrite Hc.
  destruct (Twilio.dial _ _ _) as [d|e] eqn:Hd; [|discriminate].
  intros [= <-]. exact (dial_caller _ _ _ Hd).
Qed.

Lemma started_server_dials_with_caller_id_witness :
  startup full_env = Listening sample_cfg /\
  exists caller,
    getenv full_env "TWILIO_PHONE_NUMBER" = Some caller /\ caller <> "" /\
    forall (o : Oracle) (req : Request) (w : World) (document : Twilio.VoiceResponse),
      content (fst (post_voice sample_cfg o req w)) = Xml document ->
      Forall (fun v => match v with
                       | Twilio.VDial d => Twilio.callerId d = Some caller
                       end) (Twilio.verbs document).
Proof.
  split; [reflexivity|].
  apply (started_server_dials_with_caller_id full_env sample_cfg). reflexivity.
Defined.

Lemma prefix_nonempty (p s : string) :
  p <> "" -> String.prefix p s = true -> s <> "".
Proof.
  intros Hp H ->. destruct p; [contradiction | discriminate].
Qed.

(** X6: the check of line 110 only logs.  A client-prefixed [To] of
    characters XML allows, under a fresh, non-empty [CallSid], with the
    store available and a provisioned number of such characters, is
    reported on the error console and then treated like any number: the
    call log is written with it as [phoneNumber] and the routing document
    dials it. *)
Theorem client_prefixed_to_is_logged_stored_and_dialled
    (cfg : Config) (o : Oracle) (req : Request) (w : World) (to sid : string) :
  pending w = [] ->
  own_property (body req) "To" = JString to ->
  String.prefix "client:" to = true ->
  Twilio.xml_legal to = true ->
  caller_legal cfg = true ->
  castString (own_property (body req) "CallSid") = CastOk sid ->
  sid <> "" ->
  count_id sid (callLogs w) = 0%nat ->
  dbFault o = false ->
  let doc := {| CallLog._id := sid; CallLog.phoneNumber := to;
                CallLog.status := "initiated"; CallLog.duration := None;
                CallLog.timestamp := now o |} in
  post_voice cfg o req w =
    ({| statusCode := 200; contentType := "text/xml";
        content := Xml {| Twilio.verbs :=
                            [ Twilio.VDial {| Twilio.callerId := TWILIO_PHONE_NUMBER cfg;
                                              Twilio.number := JString to |} ] |} |},
     {| callLogs := (callLogs w ++ [doc])%list;
        objections := objections w;
        trace := (trace w ++ [ ConsoleError InvalidTo;
                               ConsoleLog (NewCallRequest (TWILIO_PHONE_NUMBER cfg) (JString to));
                               InsertCallLog doc;
                               ConsoleLog (InsertedData (JString to)) ])%list;
        pending := [] |}).
Proof.
  intros Hp HTo Hpre Hlegal Hcaller Hsid Hsid' Hfresh Hdb doc.
  assert (Hto : to <> "") by (apply (prefix_nonempty "client:"); [discriminate | exact Hpre]).
  assert (Hc : to_checkable (own_property (body req) "To") = true).
  { rewrite HTo. unfold to_checkable. simpl. apply orb_true_r. }
  rewrite (post_voice_checkable cfg o req w Hp Hc).
  assert (Hv : CallLog.validate
                 (CallLog.create (now o) (own_property (body req) "CallSid")
                    (own_property (body req) "To") (JString "initiated")) = Normal doc).
  { apply callLog_validate_accepts; auto. rewrite HTo. reflexivity. }
  rewrite (run_job_accepted o _ _ _ doc Hv Hdb).
  2:{ simpl. now apply existsb_count_id. }
  rewrite HTo, (voice_answer_dialable cfg (JString to) Hcaller Hlegal).
  unfold routed, routing_document, request_log, to_invalid. simpl.
  apply String.eqb_neq in Hto. rewrite Hto, Hpre. simpl.
  tidy_trace. reflexivity.
Qed.

Lemma client_prefixed_to_is_logged_stored_and_dialled_witness :
  String.prefix "client:" "client:alice" = true /\
  Twilio.xml_legal "client:alice" = true /\
  caller_legal sample_cfg = true /\
  callLogs (snd (post_voice sample_cfg healthy client_call empty_world)) =
    [ {| CallLog._id := "CA777"; CallLog.phoneNumber := "client:alice";
         CallLog.status := "initiated"; CallLog.duration := None;
         CallLog.timestamp := now healthy |} ].
Proof.
  split; [reflexivity|]. split; [reflexivity|]. split; [reflexivity|].
  rewrite (client_prefixed_to_is_logged_stored_and_dialled sample_cfg healthy client_call
             empty_world "client:alice" "CA777");
    solve [reflexivity | discriminate].
Defined.

Lemma blank_not_required (v : JsValue) :
  blank v = true -> checkRequired (castString v) = None.
Proof.
  destruct v; simpl; try discriminate; try reflexivity.
  intros ->. reflexivity.
Qed.

(** X7: a request whose [To] or whose [CallSid] is absent, [null] or the
    empty string never writes a call log, whatever the other field holds:
    the required-path validation turns the write down.  When it is [To]
    that is blank the caller is still answered 200 with a routing document:
    an empty response for [null], and otherwise, the provisioned number
    being of characters XML allows, a [<Dial>] of that blank value. *)
Theorem blank_field_writes_no_call_log
    (cfg : Config) (o : Oracle) (req : Request) (w : World) :
  pending w = [] ->
  blank (own_property (body req) "To") = true \/
  blank (own_property (body req) "CallSid") = true ->
  callLogs (snd (post_voice cfg o req w)) = callLogs w /\
  (blank (own_property (body req) "To") = true ->
   own_property (body req) "To" = JNull \/ caller_legal cfg = true ->
   fst (post_voice cfg o req w) =
     {| statusCode := 200; contentType := "text/xml";
        content :=
          Xml {| Twilio.verbs :=
                   match own_property (body req) "To" with
                   | JNull => []
                   | _ => [ Twilio.VDial {| Twilio.callerId := TWILIO_PHONE_NUMBER cfg;
                                            Twilio.number := own_property (body req) "To" |} ]
                   end |} |}).
Proof.
  intros Hp Hb. split.
  - destruct (post_voice_store cfg o req w Hp) as (_ & _ & [Hc | (doc & _ & Hv & _)]);
      [exact Hc | exfalso].
    unfold CallLog.validate, CallLog.create in Hv; simpl in Hv.
    destruct Hb as [Hb | Hb]; apply blank_not_required in Hb; rewrite Hb in Hv.
    + destruct (checkRequired (castString (own_property (body req) "CallSid")));
        discriminate.
    + discriminate.
  - intros HTo Hr.
    assert (Hr' : own_property (body req) "To" = JNull \/
                  (caller_legal cfg = true /\
                   to_dialable (own_property (body req) "To") = true)).
    { destruct Hr as [Hn | Hc]; [now left|].
      destruct (own_property (body req) "To") as [| |b|n safe|s| |];
        simpl in HTo; try discriminate; [right | now left | right]; split; auto.
      apply String.eqb_eq in HTo. subst s. reflexivity. }
    apply voice_answer_routable in Hr' as [Hcheck Hans].
    now rewrite post_voice_answer, Hcheck.
Qed.

Lemma blank_field_writes_no_call_log_witness :
  pending empty_world = [] /\
  blank (own_property (body null_to_call) "To") = true /\
  callLogs (snd (post_voice sample_cfg healthy null_to_call empty_world)) =
    callLogs empty_world /\
  fst (post_voice sample_cfg healthy null_to_call empty_world) =
    {| statusCode := 200; contentType := "text/xml";
       content := Xml {| Twilio.verbs := [] |} |}.
Proof.
  split; [reflexivity|]. split; [reflexivity|].
  destruct (blank_field_writes_no_call_log sample_cfg healthy null_to_call empty_world
              eq_refl (or_introl eq_refl)) as [Hlogs Hans].
  split; [exact Hlogs|]. apply Hans; [reflexivity | left; reflexivity].
Defined.

(* ================================================================= *)
(** ** Further properties: objection bridge and the server as a whole *)

Lemma completion_calls_app (t1 t2 : list Event) :
  completion_calls (t1 ++ t2)%list = (completion_calls t1 ++ completion_calls t2)%list.
Proof. apply filter_app. Qed.

(** What one [objection] event does, whatever path it takes. *)
Lemma on_objection_effect
    (o : Oracle) (socket : SocketId) (message : string) (w : World) :
  exists events,
    trace (snd (on_objection o socket message w)) = (trace w ++ events)%list /\
    completion_calls events = [CompletionsCreate (objection_request message)] /\
    callLogs (snd (on_objection o socket message w)) = callLogs w /\
    pending (snd (on_objection o socket message w)) = pending w /\
    ((objections (snd (on_objection o socket message w)) = objections w /\
      emissions events = [SocketEmit socket "suggestion" (Some failure_text)])
     \/
     (exists s,
        message <> "" /\ s <> "" /\ dbFault o = false /\
        objections (snd (on_objection o socket message w)) =
          (objections w ++ [ {| Objection.message := message; Objection.response := s;
                                Objection.timestamp := now o |} ])%list /\
        emissions events = [SocketEmit socket "suggestion" (Some s)])).
Proof.
  unfold on_objection.
  destruct (completion o (objection_request message)) as [r|e] eqn:Hc.
  2:{ rewrite (objection_handler_service_error o socket message w e Hc).
      eexists. simpl. split; [reflexivity|]. repeat split. left. split; reflexivity. }
  destruct (first_content r) as [suggestion|e] eqn:Hf.
  2:{ rewrite (objection_handler_no_content o socket message w r e Hc Hf).
      eexists. simpl. split; [reflexivity|]. repeat split. left. split; reflexivity. }
  destruct (Objection.validate (Objection.create (now o) message suggestion))
    as [d|e] eqn:Hv.
  2:{ rewrite (objection_handler_invalid o socket message w r suggestion e Hc Hf Hv).
      eexists. simpl. split; [reflexivity|]. repeat split. left. split; reflexivity. }
  destruct (dbFault o) eqn:Hdb.
  { rewrite (objection_handler_store_fault o socket message w r suggestion d Hc Hf Hv Hdb).
    eexists. simpl. split; [reflexivity|]. repeat split. left. split; reflexivity. }
  rewrite (objection_handler_saved o socket message w r suggestion d Hc Hf Hv Hdb).
  apply objection_validate_ok in Hv as (s & -> & Hm & Hs & ->).
  eexists. simpl. split; [reflexivity|]. repeat split.
  right. exists s. repeat split; auto.
Qed.

(** What one [POST /voice] exchange adds to the trace: console lines and at
    most one insert, no socket traffic and no call to the completion
    service. *)
Lemma post_voice_effect (cfg : Config) (o : Oracle) (req : Request) (w : World) :
  pending w = [] ->
  exists events,
    trace (snd (post_voice cfg o req w)) = (trace w ++ events)%list /\
    emissions events = [] /\
    completion_calls events = [].
Proof.
  intros Hp.
  destruct (to_checkable (own_property (body req) "To")) eqn:HTo.
  - destruct (post_voice_outcome cfg o req w Hp HTo)
      as (_ & tail & Htr & [(doc & -> & _) | (e & -> & _)]);
      eexists; (split; [exact Htr|]);
      unfold request_log; destruct (to_invalid _); split; reflexivity.
  - rewrite (post_voice_throws cfg o req w Hp HTo). exists []. simpl.
    rewrite app_nil_r. auto.
Qed.

(** X8: an empty objection message is not filtered out: the completion
    service is called for it all the same, and since the record could not be
    saved the round trip always ends in the failure text, with no Objection
    stored, whatever the service answered. *)
Theorem empty_objection_calls_service_and_fails
    (o : Oracle) (socket : SocketId) (w : World) :
  exists events,
    trace (snd (on_objection o socket "" w)) = (trace w ++ events)%list /\
    completion_calls events = [CompletionsCreate (objection_request "")] /\
    emissions events = [SocketEmit socket "suggestion" (Some failure_text)] /\
    objections (snd (on_objection o socket "" w)) = objections w.
Proof.
  destruct (on_objection_effect o socket "" w)
    as (events & Htr & Hcalls & _ & _ & [[Hobj Hem] | (s & Hm & _)]).
  - exists events. auto.
  - now destruct Hm.
Qed.

Lemma backed_emission_grows (w w' : World) (e : Event) (more : list Objection.doc) :
  objections w' = (objections w ++ more)%list ->
  backed_emission w e -> backed_emission w' e.
Proof.
  intros Ho (socket & text & -> & [Ht | (d & Hd & Hr)]);
    exists socket, text; split; auto.
  right. exists d. split; [|exact Hr]. rewrite Ho. apply in_or_app. now left.
Qed.

Lemma in_emissions (e : Event) (t : list Event) :
  In e t -> is_emission e = true -> In e (emissions t).
Proof. intros H1 H2. apply filter_In. auto. Qed.

Lemma step_backed `{codec : Twilio.JwtCodec} (cfg : Config) (i : Input) (w : World) :
  pending w = [] -> all_backed w ->
  pending (step cfg i w) = [] /\ all_backed (step cfg i w).
Proof.
  intros Hp Hb. destruct i as [o req | o req | o socket message]; simpl.
  - rewrite get_token_world. auto.
  - destruct (post_voice_store cfg o req w Hp) as (Hp' & Hobj & _).
    split; [exact Hp'|].
    destruct (post_voice_effect cfg o req w Hp) as (events & Htr & Hem & _).
    intros e He Hemit. rewrite Htr in He. apply in_app_or in He as [He | He].
    + apply (backed_emission_grows w _ e []); [now rewrite app_nil_r | auto].
    + apply in_emissions in He; [|exact Hemit]. rewrite Hem in He. destruct He.
  - destruct (on_objection_effect o socket message w)
      as (events & Htr & _ & _ & Hp' & Hcases).
    split; [now rewrite Hp'|].
    intros e He Hemit. rewrite Htr in He. apply in_app_or in He as [He | He].
    + destruct Hcases as [[Hobj _] | (s & _ & _ & _ & Hobj & _)].
      * apply (backed_emission_grows w _ e []); [now rewrite app_nil_r | auto].
      * eapply backed_emission_grows; [exact Hobj | auto].
    + apply in_emissions in He; [|exact Hemit].
      destruct Hcases as [[_ Hem] | (s & _ & _ & _ & Hobj & Hem)];
        rewrite Hem in He; destruct He as [<- | []].
      * exists socket, failure_text. auto.
      * exists socket, s. split; [reflexivity|]. right.
        eexists. split; [rewrite Hobj; apply in_or_app; right; left; reflexivity|].
        reflexivity.
Qed.

Lemma run_backed `{codec : Twilio.JwtCodec} (cfg : Config) (inputs : list Input) :
  forall w, pending w = [] -> all_backed w ->
            pending (run cfg inputs w) = [] /\ all_backed (run cfg inputs w).
Proof.
  induction inputs as [|i inputs IH]; intros w Hp Hb; simpl; [auto|].
  destruct (step_backed cfg i w Hp Hb) as [Hp' Hb']. now apply IH.
Qed.

(** X9: in every world the server reaches, all socket traffic consists of
    [suggestion] events addressed to one socket and carrying a string, never
    [null] and never a broadcast; and a suggestion other than the failure
    text is only ever sent once an Objection record with that response is in
    the store. *)
Theorem suggestions_are_backed_by_records `{codec : Twilio.JwtCodec}
    (cfg : Config) (inputs : list Input) :
  Forall (backed_emission (run cfg inputs empty_world))
         (emissions (trace (run cfg inputs empty_world))).
Proof.
  destruct (run_backed cfg inputs empty_world eq_refl) as [_ H].
  { intros e []. }
  apply Forall_forall. intros e He. apply filter_In in He as [He Hemit]. now apply H.
Qed.

Lemma step_objections `{codec : Twilio.JwtCodec} (cfg : Config) (i : Input) (w : World) :
  pending w = [] ->
  pending (step cfg i w) = [] /\
  (objections (step cfg i w) = objections w \/
   exists o socket message s,
     i = OnObjection o socket message /\ message <> "" /\ s <> "" /\
     objections (step cfg i w) =
       (objections w ++ [ {| Objection.message := message; Objection.response := s;
                             Objection.timestamp := now o |} ])%list).
Proof.
  intros Hp. destruct i as [o req | o req | o socket message]; simpl.
  - rewrite get_token_world. auto.
  - destruct (post_voice_store cfg o req w Hp) as (Hp' & Hobj & _). auto.
  - destruct (on_objection_effect o socket message w)
      as (events & _ & _ & _ & Hp' & [[Hobj _] | (s & Hm & Hs & _ & Hobj & _)]).
    + split; [now rewrite Hp' | now left].
    + split; [now rewrite Hp'|]. right. exists o, socket, message, s. auto.
Qed.

(** X10: every Objection record in a world the server reaches holds a
    non-empty message and a non-empty response: an exchange whose message
    or suggestion is empty is never stored. *)
Theorem stored_objections_are_nonempty `{codec : Twilio.JwtCodec}
    (cfg : Config) (inputs : list Input) :
  Forall (fun d => Objection.message d <> "" /\ Objection.response d <> "")
         (objections (run cfg inputs empty_world)).
Proof.
  assert (H : forall w,
             pending w = [] ->
             Forall (fun d => Objection.message d <> "" /\ Objection.response d <> "")
                    (objections w) ->
             Forall (fun d => Objection.message d <> "" /\ Objection.response d <> "")
                    (objections (run cfg inputs w))).
  { induction inputs as [|i inputs IH]; intros w Hp Hw; simpl; [exact Hw|].
    destruct (step_objections cfg i w Hp)
      as [Hp' [Hobj | (o & socket & message & s & _ & Hm & Hs & Hobj)]];
      apply IH; auto; rewrite Hobj; [exact Hw|].
    apply Forall_app. split; [exact Hw|]. constructor; [simpl; auto | constructor]. }
  apply H; [reflexivity | constructor].
Qed.

Lemma step_calls `{codec : Twilio.JwtCodec} (cfg : Config) (i : Input) (w : World) :
  pending w = [] ->
  pending (step cfg i w) = [] /\
  completion_calls (trace (step cfg i w)) =
    (completion_calls (trace w) ++ requests_of [i])%list.
Proof.
  intros Hp. destruct i as [o req | o req | o socket message]; simpl.
  - rewrite get_token_world, app_nil_r. auto.
  - destruct (post_voice_store cfg o req w Hp) as (Hp' & _).
    destruct (post_voice_effect cfg o req w Hp) as (events & Htr & _ & Hcalls).
    split; [exact Hp'|]. now rewrite Htr, completion_calls_app, Hcalls.
  - destruct (on_objection_effect o socket message w)
      as (events & Htr & Hcalls & _ & Hp' & _).
    split; [now rewrite Hp'|]. now rewrite Htr, completion_calls_app, Hcalls.
Qed.

(** X11: along any sequence of events the handlers invoke
    [openai.chat.completions.create] exactly once for each [objection]
    event, in the order the events arrive, and never for [/token] or
    [/voice]: the handler has no retry of its own, and a failed invocation
    is not repeated.  What the client does inside one invocation, its own
    retries included, is not counted. *)
Theorem one_completion_call_per_objection `{codec : Twilio.JwtCodec}
    (cfg : Config) (inputs : list Input) :
  completion_calls (trace (run cfg inputs empty_world)) = requests_of inputs.
Proof.
  assert (H : forall w,
             pending w = [] ->
             completion_calls (trace (run cfg inputs w)) =
               (completion_calls (trace w) ++ requests_of inputs)%list).
  { induction inputs as [|i inputs IH]; intros w Hp; simpl.
    - now rewrite app_nil_r.
    - destruct (step_calls cfg i w Hp) as [Hp' Hc].
      rewrite (IH _ Hp'), Hc. simpl. rewrite app_nil_r, <- app_assoc. reflexivity. }
  apply (H empty_world). reflexivity.
Qed.

Lemma run_app `{codec : Twilio.JwtCodec} (cfg : Config) (a b : list Input) (w : World) :
  run cfg (a ++ b)%list w = run cfg b (run cfg a w).
Proof. apply fold_left_app. Qed.

Lemma run_pending `{codec : Twilio.JwtCodec} (cfg : Config) (inputs : list Input) :
  forall w, pending w = [] -> pending (run cfg inputs w) = [].
Proof.
  induction inputs as [|i inputs IH]; intros w Hp; simpl; [exact Hp|].
  apply IH. apply (step_objections cfg i w Hp).
Qed.

Lemma step_extends `{codec : Twilio.JwtCodec} (cfg : Config) (i : Input) (w : World) :
  pending w = [] ->
  exists logs objs events,
    callLogs (step cfg i w) = (callLogs w ++ logs)%list /\
    objections (step cfg i w) = (objections w ++ objs)%list /\
    trace (step cfg i w) = (trace w ++ events)%list.
Proof.
  intros Hp. destruct i as [o req | o req | o socket message]; simpl.
  - rewrite get_token_world. exists [], [], []. now rewrite !app_nil_r.
  - destruct (post_voice_store cfg o req w Hp) as (_ & Hobj & Hlogs).
    destruct (post_voice_effect cfg o req w Hp) as (events & Htr & _).
    destruct Hlogs as [Hl | (doc & Hl & _)].
    + exists [], [], events. now rewrite Hl, Hobj, !app_nil_r.
    + exists [doc], [], events. now rewrite Hl, Hobj, app_nil_r.
  - destruct (on_objection_effect o socket message w)
      as (events & Htr & _ & Hl & _ & [[Hobj _] | (s & _ & _ & _ & Hobj & _)]).
    + exists [], [], events. now rewrite Hl, Hobj, !app_nil_r.
    + eexists [], _, events. rewrite Hl, Hobj, app_nil_r. auto.
Qed.

(** X12: the server only ever appends.  Whatever events follow, the call
    logs, the objections and the trace it had are still there, unchanged
    and in the same order, at the front of what it has afterwards: no
    handler updates or deletes a record. *)
Theorem collections_are_append_only `{codec : Twilio.JwtCodec}
    (cfg : Config) (inputs more : list Input) :
  exists logs objs events,
    callLogs (run cfg (inputs ++ more)%list empty_world) =
      (callLogs (run cfg inputs empty_world) ++ logs)%list /\
    objections (run cfg (inputs ++ more)%list empty_world) =
      (objections (run cfg inputs empty_world) ++ objs)%list /\
    trace (run cfg (inputs ++ more)%list empty_world) =
      (trace (run cfg inputs empty_world) ++ events)%list.
Proof.
  rewrite run_app.
  pose proof (run_pending cfg inputs empty_world eq_refl) as Hp.
  generalize dependent (run cfg inputs empty_world). clear inputs.
  induction more as [|i more IH]; intros w Hp; simpl.
  - exists [], [], []. now rewrite !app_nil_r.
  - destruct (step_extends cfg i w Hp) as (l1 & o1 & e1 & Hl1 & Ho1 & He1).
    destruct (IH (step cfg i w)) as (l2 & o2 & e2 & Hl2 & Ho2 & He2).
    { apply (step_objections cfg i w Hp). }
    exists (l1 ++ l2)%list, (o1 ++ o2)%list, (e1 ++ e2)%list.
    rewrite Hl2, Ho2, He2, Hl1, Ho1, He1, !app_assoc. auto.
Qed.

Lemma save_error_ext (o : Oracle) (d : CallLog.draft) (w1 w2 : World) :
  callLogs w1 = callLogs w2 -> save_error o d w1 = save_error o d w2.
Proof. intros H. unfold save_error. now rewrite H. Qed.

(** The call router reads nothing of the world but the call logs. *)
Lemma post_voice_call_logs_ext
    (cfg : Config) (o : Oracle) (req : Request) (w1 w2 : World) :
  pending w1 = [] -> pending w2 = [] ->
  callLogs w1 = callLogs w2 ->
  callLogs (snd (post_voice cfg o req w1)) = callLogs (snd (post_voice cfg o req w2)).
Proof.
  intros Hp1 Hp2 Hl.
  destruct (to_checkable (own_property (body req) "To")) eqn:HTo.
  - destruct (post_voice_outcome cfg o req w1 Hp1 HTo) as (_ & t1 & _ & H1).
    destruct (post_voice_outcome cfg o req w2 Hp2 HTo) as (_ & t2 & _ & H2).
    rewrite (save_error_ext o _ w1 w2 Hl) in H1.
    destruct H1 as [(d1 & _ & Hc1 & He1) | (e1 & _ & Hc1 & He1)];
      destruct H2 as [(d2 & _ & Hc2 & He2) | (e2 & _ & Hc2 & He2)];
      try congruence.
    apply save_error_none in He1 as (d1' & Hv1 & _).
    rewrite Hc1, Hc2, Hl. f_equal. f_equal.
    destruct (post_voice_store cfg o req w1 Hp1) as (_ & _ & [Hs | (x & Hs & Hx & _)]).
    + rewrite Hc1 in Hs. apply (f_equal (@length _)) in Hs.
      rewrite length_app in Hs. simpl in Hs. lia.
    + rewrite Hc1 in Hs. apply app_inj_tail in Hs as [_ ->].
      destruct (post_voice_store cfg o req w2 Hp2) as (_ & _ & [Hs' | (y & Hs' & Hy & _)]).
      * rewrite Hc2 in Hs'. apply (f_equal (@length _)) in Hs'.
        rewrite length_app in Hs'. simpl in Hs'. lia.
      * rewrite Hc2 in Hs'. apply app_inj_tail in Hs' as [_ ->]. congruence.
  - rewrite (post_voice_throws cfg o req w1 Hp1 HTo),
            (post_voice_throws cfg o req w2 Hp2 HTo). exact Hl.
Qed.

(** The objection bridge reads nothing of the world at all: what it adds
    to the objections is decided by the message and the oracle. *)
Lemma on_objection_objections_ext
    (o : Oracle) (socket : SocketId) (message : string) (w1 w2 : World) :
  objections w1 = objections w2 ->
  objections (snd (on_objection o socket message w1)) =
    objections (snd (on_objection o socket message w2)).
Proof.
  intros Ho. unfold on_objection.
  destruct (completion o (objection_request message)) as [r|e] eqn:Hc.
  2:{ now rewrite !(objection_handler_service_error o socket message _ e Hc). }
  destruct (first_content r) as [suggestion|e] eqn:Hf.
  2:{ now rewrite !(objection_handler_no_content o socket message _ r e Hc Hf). }
  destruct (Objection.validate (Objection.create (now o) message suggestion))
    as [d|e] eqn:Hv.
  2:{ now rewrite !(objection_handler_invalid o socket message _ r suggestion e Hc Hf Hv). }
  destruct (dbFault o) eqn:Hdb.
  - now rewrite !(objection_handler_store_fault o socket message _ r suggestion d Hc Hf Hv Hdb).
  - rewrite !(objection_handler_saved o socket message _ r suggestion d Hc Hf Hv Hdb).
    simpl. now rewrite Ho.
Qed.

Lemma run_call_logs_filter `{codec : Twilio.JwtCodec} (cfg : Config) (inputs : list Input) :
  forall w1 w2,
    pending w1 = [] -> pending w2 = [] -> callLogs w1 = callLogs w2 ->
    callLogs (run cfg inputs w1) = callLogs (run cfg (filter is_voice_input inputs) w2).
Proof.
  induction inputs as [|i inputs IH]; intros w1 w2 Hp1 Hp2 Hl; simpl; [exact Hl|].
  destruct i as [o req | o req | o socket message]; simpl.
  - rewrite get_token_world. now apply IH.
  - apply IH.
    + apply (post_voice_store cfg o req w1 Hp1).
    + apply (post_voice_store cfg o req w2 Hp2).
    + now apply post_voice_call_logs_ext.
  - destruct (on_objection_call_logs o socket message w1) as [Hl' Hp'].
    apply IH; [now rewrite Hp' | exact Hp2 | now rewrite Hl'].
Qed.

Lemma run_objections_filter `{codec : Twilio.JwtCodec} (cfg : Config) (inputs : list Input) :
  forall w1 w2,
    pending w1 = [] -> pending w2 = [] -> objections w1 = objections w2 ->
    objections (run cfg inputs w1) =
      objections (run cfg (filter is_objection_input inputs) w2).
Proof.
  induction inputs as [|i inputs IH]; intros w1 w2 Hp1 Hp2 Ho; simpl; [exact Ho|].
  destruct i as [o req | o req | o socket message]; simpl.
  - rewrite get_token_world. now apply IH.
  - destruct (post_voice_store cfg o req w1 Hp1) as (Hp' & Ho' & _).
    apply IH; [exact Hp' | exact Hp2 | now rewrite Ho'].
  - destruct (on_objection_call_logs o socket message w1) as [_ Hp1'].
    destruct (on_objection_call_logs o socket message w2) as [_ Hp2'].
    apply IH; [now rewrite Hp1' | now rewrite Hp2' |].
    now apply on_objection_objections_ext.
Qed.

(** X13: the two collections do not interfere.  The call logs the server
    ends up with are those it would hold had it received the [/voice]
    requests alone, and its objections those it would hold had it received
    the [objection] events alone; [/token] requests affect neither. *)
Theorem collections_do_not_interfere `{codec : Twilio.JwtCodec}
    (cfg : Config) (inputs : list Input) :
  callLogs (run cfg inputs empty_world) =
    callLogs (run cfg (filter is_voice_input inputs) empty_world) /\
  objections (run cfg inputs empty_world) =
    objections (run cfg (filter is_objection_input inputs) empty_world).
Proof.
  split.
  - now apply run_call_logs_filter.
  - now apply run_objections_filter.
Qed.

Lemma first_content_head (r1 r2 : OpenAI.ChatCompletion) :
  hd_error (OpenAI.choices r1) = hd_error (OpenAI.choices r2) ->
  first_content r1 = first_content r2.
Proof.
  unfold first_content.
  destruct (OpenAI.choices r1), (OpenAI.choices r2); simpl; congruence.
Qed.

(** X14: only the first choice of a completion counts.  Two answers of the
    service that agree on their first choice lead, under the same clock and
    the same health of the store, to the same record, the same log and the
    same emission, whatever further choices either carries. *)
Theorem only_first_choice_is_used
    (o1 o2 : Oracle) (socket : SocketId) (message : string) (w : World)
    (r1 r2 : OpenAI.ChatCompletion) :
  now o1 = now o2 ->
  dbFault o1 = dbFault o2 ->
  completion o1 (objection_request message) = Normal r1 ->
  completion o2 (objection_request message) = Normal r2 ->
  hd_error (OpenAI.choices r1) = hd_error (OpenAI.choices r2) ->
  on_objection o1 socket message w = on_objection o2 socket message w.
Proof.
  intros Hn Hd H1 H2 Hh. apply first_content_head in Hh. unfold on_objection.
  destruct (first_content r1) as [suggestion|e] eqn:Hf1.
  2:{ rewrite (objection_handler_no_content o1 socket message w r1 e H1 Hf1).
      symmetry in Hh.
      now rewrite (objection_handler_no_content o2 socket message w r2 e H2 Hh). }
  symmetry in Hh.
  destruct (Objection.validate (Objection.create (now o1) message suggestion))
    as [d|e] eqn:Hv.
  2:{ rewrite (objection_handler_invalid o1 socket message w r1 suggestion e H1 Hf1 Hv).
      rewrite Hn in Hv.
      now rewrite (objection_handler_invalid o2 socket message w r2 suggestion e H2 Hh Hv). }
  destruct (dbFault o1) eqn:Hdb.
  - rewrite (objection_handler_store_fault o1 socket message w r1 suggestion d H1 Hf1 Hv Hdb).
    rewrite Hn in Hv. symmetry in Hd.
    now rewrite (objection_handler_store_fault o2 socket message w r2 suggestion d H2 Hh Hv Hd).
  - rewrite (objection_handler_saved o1 socket message w r1 suggestion d H1 Hf1 Hv Hdb).
    rewrite Hn in Hv. symmetry in Hd.
    now rewrite (objection_handler_saved o2 socket message w r2 suggestion d H2 Hh Hv Hd).
Qed.

Lemma only_first_choice_is_used_witness :
  hd_error (OpenAI.choices (reply (Some "Anchor on value, not price.")))
    = hd_error (OpenAI.choices two_choices) /\
  on_objection healthy "socket-1" "price is too high" empty_world =
    on_objection healthy_two_choices "socket-1" "price is too high" empty_world.
Proof.
  split; [reflexivity|].
  apply (only_first_choice_is_used healthy healthy_two_choices "socket-1"
           "price is too high" empty_world
           (reply (Some "Anchor on value, not price.")) two_choices);
    reflexivity.
Defined.
